(** * Retrieval and re-ranking core of the search endpoint

    A shallow embedding of the search route (corpus accessor, filter engine,
    MMR ranker, input validation and the POST handler) together with the
    properties its specification states about it.

    JavaScript numbers are IEEE 754 binary64 values, so they are modelled by
    Rocq's primitive floats, whose operations are the same binary64
    operations.  Objects built by the handler are finite maps from field
    names to values. *)

From Stdlib Require Import ZArith Floats List Lia Ascii String Permutation Sorted.
From stdpp Require Import gmap strings list fin_maps pretty.
Import ListNotations.

Local Open Scope Z_scope.

(** ** JavaScript numbers *)

Module JsNum.

(** [a < b], [a <= b] and [a == b] on numbers; [a > b] is [lt b a]. *)
Definition lt (x y : float) : bool := PrimFloat.ltb x y.
Definition le (x y : float) : bool := PrimFloat.leb x y.
Definition eq (x y : float) : bool := PrimFloat.eqb x y.

Definition isNaN (x : float) : bool := PrimFloat.is_nan x.

(** A number is truthy unless it is [+0], [-0] or [NaN]. *)
Definition truthy (x : float) : bool :=
  negb (PrimFloat.eqb x PrimFloat.zero) && negb (isNaN x).

(** [Math.max(a, b)]: [NaN] if either argument is [NaN], and [+0] is
    larger than [-0]. *)
Definition Math_max (a b : float) : float :=
  if isNaN a || isNaN b then PrimFloat.nan
  else if lt a b then b
  else if lt b a then a
  else if PrimFloat.get_sign a then b else a.

(** Comparison of an array length with a number.  A length is an integer
    below [2^32], which binary64 represents exactly, so the comparison is
    the one of the exact values: [n] against [m * 2^e]. *)
Definition cmpLen (n : nat) (x : float) : option comparison :=
  match Prim2SF x with
  | S754_nan => None
  | S754_infinity s => Some (if s then Gt else Lt)
  | S754_zero _ => Some (Z.of_nat n ?= 0)
  | S754_finite true _ _ => Some Gt
  | S754_finite false m (Zneg p) => Some (Z.of_nat n * 2 ^ Zpos p ?= Zpos m)
  | S754_finite false m e => Some (Z.of_nat n ?= Zpos m * 2 ^ e)
  end.

(** [n <= x] and [n < x] for a length [n]. *)
Definition lenLe (n : nat) (x : float) : bool :=
  match cmpLen n x with Some Lt | Some Eq => true | _ => false end.
Definition lenLt (n : nat) (x : float) : bool :=
  match cmpLen n x with Some Lt => true | _ => false end.

(** The number denoted by a small natural literal. *)
Definition ofNat (k : nat) : float :=
  PrimFloat.of_uint63 (Uint63.of_Z (Z.of_nat k)).

(** The least exponent of binary64, and the finite or infinite numbers of
    sign [s] (used to state how rounding treats signs). *)
Definition emin64 : Z := -1074.

Definition signed (s : bool) (r : spec_float) : Prop :=
  match r with
  | S754_finite s' _ _ | S754_infinity s' => s' = s
  | _ => False
  end.

End JsNum.

(** ** Strings *)

Module JsString.

Definition lowerChar (c : ascii) : ascii :=
  let n := nat_of_ascii c in
  if (Nat.leb 65 n && Nat.leb n 90)%bool then ascii_of_nat (n + 32) else c.

(** [s.toLowerCase()] for ASCII text: the letters [A]..[Z] are mapped,
    every other character is kept.  Text outside ASCII, where the engine
    also maps letters such as [É], is not modelled. *)
Fixpoint toLowerCase (s : string) : string :=
  match s with
  | EmptyString => EmptyString
  | String c s' => String (lowerChar c) (toLowerCase s')
  end.

(** [s.includes(t)]: [t] occurs in [s] as a substring. *)
Fixpoint includes (s t : string) : bool :=
  if String.prefix t s then true
  else match s with
       | EmptyString => false
       | String _ s' => includes s' t
       end.

End JsString.

(** ** Values *)

(** The values a parsed JSON body can hold, and [undefined] for an absent
    property. *)
#[local] Unset Elimination Schemes.
Inductive JsVal : Type :=
  | JUndef
  | JNull
  | JBool (b : bool)
  | JNum (x : float)
  | JStr (s : string)
  | JArr (l : list JsVal).
#[local] Set Elimination Schemes.

(** Truthiness, as [if (v)] and [v && ...] test it. *)
Definition truthy (v : JsVal) : bool :=
  match v with
  | JUndef | JNull => false
  | JBool b => b
  | JNum x => JsNum.truthy x
  | JStr s => negb (String.eqb s EmptyString)
  | JArr _ => true
  end.

Definition isNumber (v : JsVal) : bool :=
  match v with JNum _ => true | _ => false end.

(** The number a value is converted to when it is compared with a number.
    Of the strings only the empty one (which is [0]) is converted exactly;
    no other string reaches a comparison in this program. *)
Definition toNumber (v : JsVal) : float :=
  match v with
  | JUndef => PrimFloat.nan
  | JNull => PrimFloat.zero
  | JBool b => if b then PrimFloat.one else PrimFloat.zero
  | JNum x => x
  | JStr s => if String.eqb s EmptyString then PrimFloat.zero else PrimFloat.nan
  | JArr _ => PrimFloat.nan
  end.

Definition optStr (o : option string) : JsVal :=
  match o with Some s => JStr s | None => JUndef end.
Definition optNum (o : option float) : JsVal :=
  match o with Some x => JNum x | None => JUndef end.

(** ** Data model *)

(** A chunk record of the corpus file.  [year] and [url] are optional. *)
Record Paper : Type := mkPaper {
  doc_id : string;
  doc_title : string;
  year : option float;
  url : option string;
  chunk_id : string;
  text : string;
  embedding : list float
}.

(** The filter of a request.  Every block and every bound is optional
    ([None] is an absent property). *)
Record YearRange : Type := mkYearRange {
  year_min : option float;
  year_max : option float
}.

Record Keywords : Type := mkKeywords {
  kw_include : option (list string);
  kw_exclude : option (list string)
}.

Record Filter : Type := mkFilter {
  f_year : option YearRange;
  f_keywords : option Keywords;
  f_doc_ids : option (list string)
}.

(** ** Filter engine *)

(** [p.year && p.year >= lo] and [p.year && p.year <= hi]. *)
Definition yearAtLeast (lo : float) (p : Paper) : bool :=
  match year p with
  | Some y => JsNum.truthy y && JsNum.le lo y
  | None => false
  end.

Definition yearAtMost (hi : float) (p : Paper) : bool :=
  match year p with
  | Some y => JsNum.truthy y && JsNum.le y hi
  | None => false
  end.

(** [terms.some(term => p.text.toLowerCase().includes(term) ||
    p.doc_title.toLowerCase().includes(term))]. *)
Definition matchesAny (terms : list string) (p : Paper) : bool :=
  existsb (fun term =>
             JsString.includes (JsString.toLowerCase (text p)) term
             || JsString.includes (JsString.toLowerCase (doc_title p)) term)
          terms.

Definition nonEmpty {A : Type} (l : list A) : bool :=
  match l with [] => false | _ :: _ => true end.

Definition applyYear (y : YearRange) (papers : list Paper) : list Paper :=
  let filtered :=
    match year_min y with
    | Some lo => List.filter (yearAtLeast lo) papers
    | None => papers
    end in
  match year_max y with
  | Some hi => List.filter (yearAtMost hi) filtered
  | None => filtered
  end.

Definition applyKeywords (k : Keywords) (papers : list Paper) : list Paper :=
  let filtered :=
    match kw_include k with
    | Some inc =>
        if nonEmpty inc
        then List.filter (matchesAny (map JsString.toLowerCase inc)) papers
        else papers
    | None => papers
    end in
  match kw_exclude k with
  | Some exc =>
      if nonEmpty exc
      then List.filter
             (fun p => negb (matchesAny (map JsString.toLowerCase exc) p))
             filtered
      else filtered
  | None => filtered
  end.

Definition applyDocIds (ids : list string) (papers : list Paper) : list Paper :=
  if nonEmpty ids
  then List.filter (fun p => existsb (String.eqb (doc_id p)) ids) papers
  else papers.

Definition applyFilters (papers : list Paper) (flt : option Filter)
  : list Paper :=
  match flt with
  | None => papers
  | Some f =>
      let filtered :=
        match f_year f with
        | Some y => applyYear y papers
        | None => papers
        end in
      let filtered :=
        match f_keywords f with
        | Some k => applyKeywords k filtered
        | None => filtered
        end in
      match f_doc_ids f with
      | Some ids => applyDocIds ids filtered
      | None => filtered
      end
  end.

(** ** Ranker: greedy MMR selection *)

Section MMR.

(** The candidates are objects read through [.score] and [.embedding];
    [cosineSimilarity] is imported from the utilities and stays a
    parameter. *)
Context {A : Type}.
Variable score : A -> float.
Variable embeddingOf : A -> JsVal.
Variable cosineSimilarity : JsVal -> JsVal -> float.

(** The inner [for (const selectedItem of selected)] loop: the running
    maximum starts at [0]. *)
Definition maxSimilarity (selected : list A) (c : A) : float :=
  fold_left
    (fun acc s =>
       JsNum.Math_max acc (cosineSimilarity (embeddingOf c) (embeddingOf s)))
    selected PrimFloat.zero.

(** [lambda * relevanceScore - (1 - lambda) * maxSimilarity]. *)
Definition mmrScore (lambda : float) (selected : list A) (c : A) : float :=
  PrimFloat.sub
    (PrimFloat.mul lambda (score c))
    (PrimFloat.mul (PrimFloat.sub PrimFloat.one lambda)
                   (maxSimilarity selected c)).

(** The [for (let i = 0; ...)] loop over [remaining], from index [i] on,
    carrying [bestIdx] and [bestScore]. *)
Fixpoint scanBest (lambda : float) (selected : list A) (rest : list A)
    (i bestIdx : nat) (bestScore : float) : nat * float :=
  match rest with
  | [] => (bestIdx, bestScore)
  | c :: rest' =>
      let m := mmrScore lambda selected c in
      if JsNum.lt bestScore m
      then scanBest lambda selected rest' (S i) i m
      else scanBest lambda selected rest' (S i) bestIdx bestScore
  end.

Definition bestIndex (lambda : float) (selected remaining : list A) : nat :=
  fst (scanBest lambda selected remaining 0%nat 0%nat PrimFloat.neg_infinity).

(** [remaining.splice(i, 1)] leaves the other elements in order. *)
Definition removeAt (i : nat) (l : list A) : list A :=
  firstn i l ++ skipn (S i) l.

(** The [while] loop.  Every iteration removes one element of
    [remaining], so [length remaining] iterations are enough.  The index
    found by the scan is always in range; the [None] branch is there for
    totality only. *)
Fixpoint mmrLoop (fuel : nat) (lambda maxResults : float)
    (selected remaining : list A) : list A :=
  match fuel with
  | O => selected
  | S fuel' =>
      if JsNum.lenLt (length selected) maxResults && nonEmpty remaining
      then
        let b := bestIndex lambda selected remaining in
        match nth_error remaining b with
        | Some x =>
            mmrLoop fuel' lambda maxResults (selected ++ [x])
                    (removeAt b remaining)
        | None => selected
        end
      else selected
  end.

(** [mmrDiversification(results, queryEmbedding, lambda, maxResults)];
    the query embedding is not read by the body. *)
Definition mmrDiversification (results : list A) (lambda maxResults : float)
  : list A :=
  if JsNum.lenLe (length results) maxResults then results
  else match results with
       | [] => []
       | r :: rest => mmrLoop (length rest) lambda maxResults [r] rest
       end.

End MMR.

(** The literal [0.3] denotes the nearest binary64 value. *)
Definition lambda03 : float := 0x1.3333333333333p-2%float.

(** ** Sorting *)

Section JsSort.

Context {A : Type}.
(** The comparator: a positive number puts its first argument after its
    second one; [NaN] counts as [0]. *)
Variable compareFn : A -> A -> float.

Fixpoint insertSorted (x : A) (l : list A) : list A :=
  match l with
  | [] => [x]
  | y :: l' =>
      if JsNum.lt PrimFloat.zero (compareFn x y)
      then y :: insertSorted x l'
      else x :: l
  end.

(** [Array.prototype.sort] is stable: elements the comparator does not
    order keep their relative position.  Stable insertion gives the
    engine's result when the comparator is consistent, as the handler's
    [b.score - a.score] is when no score is [NaN].  With a [NaN] score the
    comparator is not consistent and the order the engine gives is left to
    the implementation; statements about the sorted order carry the
    hypothesis that no score is [NaN]. *)
Definition sortBy (l : list A) : list A := fold_right insertSorted [] l.

End JsSort.

(** [a] may stand before [b] in a list sorted by descending [key]. *)
Definition descendingBy {A : Type} (key : A -> float) (a b : A) : Prop :=
  JsNum.le (key b) (key a) = true.

(** ** Exceptions and server state *)

Inductive Outcome (A : Type) : Type :=
  | Ok (a : A)
  | Throw (message : string).
Arguments Ok {A} a.
Arguments Throw {A} message.

(** The module-level cache of the route, with a count of the reads of the
    corpus file (the count is not program state; it records the accesses to
    storage). *)
Record Server : Type := mkServer {
  papersCache : option (list Paper);
  cacheTimestamp : option Z;
  storageReads : nat
}.

Definition initialServer : Server := mkServer None None 0.

(** Computations that read and write the server state and may throw. *)
Definition M (A : Type) : Type := Server -> Outcome A * Server.

Definition ret {A : Type} (a : A) : M A := fun s => (Ok a, s).
Definition throw {A : Type} (message : string) : M A :=
  fun s => (Throw message, s).
Definition bind {A B : Type} (m : M A) (k : A -> M B) : M B :=
  fun s => match m s with
           | (Ok a, s') => k a s'
           | (Throw e, s') => (Throw e, s')
           end.
Definition lift {A : Type} (o : Outcome A) : M A := fun s => (o, s).

Notation "'do' x <- m ; k" := (bind m (fun x => k))
  (at level 10, x name, m at level 100, k at level 200,
   format "'[v' 'do'  x  <-  m ; '/' k ']'").
Notation "'run' m ; k" := (bind m (fun _ => k))
  (at level 10, m at level 100, k at level 200,
   format "'[v' 'run'  m ; '/' k ']'").

(** ** Corpus accessor *)

Definition CACHE_DURATION : Z := 5 * 60 * 1000.

(** [papersCache && cacheTimestamp && (now - cacheTimestamp) < CACHE_DURATION]:
    an array is truthy, a time stamp is truthy unless it is [0]. *)
Definition cacheValid (now : Z) (s : Server) : option (list Paper) :=
  match papersCache s, cacheTimestamp s with
  | Some cached, Some ts =>
      if negb (ts =? 0) && (now - ts <? CACHE_DURATION) then Some cached
      else None
  | _, _ => None
  end.

(** What [JSON.parse(fs.readFileSync(...))] gives: [Unreadable] when
    reading or parsing throws, [ParsesToNull] when the file holds the JSON
    value [null], and [Corpus data] when it holds an array of chunk records.
    (A file holding another JSON value, or records of other shapes, is
    outside of this model: the corpus is typed.) *)
Inductive StoreRead : Type :=
  | Unreadable
  | ParsesToNull
  | Corpus (data : list Paper).

(** [now] is the reading of [Date.now()]; [store] is the outcome of reading
    the corpus file.  The cache and the time stamp are assigned before
    [data.length] is evaluated for the log line, so on [null] they are
    already overwritten when the [TypeError] is caught and the load error is
    thrown. *)
Definition loadPapers (now : Z) (store : StoreRead) : M (list Paper) :=
  fun s =>
    match cacheValid now s with
    | Some cached => (Ok cached, s)
    | None =>
        let reads := S (storageReads s) in
        match store with
        | Corpus data => (Ok data, mkServer (Some data) (Some now) reads)
        | ParsesToNull =>
            (Throw "Failed to load papers data",
             mkServer None (Some now) reads)
        | Unreadable =>
            (Throw "Failed to load papers data",
             mkServer (papersCache s) (cacheTimestamp s) reads)
        end
    end.

(** ** Input validation *)

Record Request : Type := mkRequest {
  queryEmbedding : JsVal;
  topK : JsVal;
  req_filter : option Filter
}.

Definition num1950 : float := 1950%float.
Definition num2030 : float := 2030%float.
Definition num10 : float := 10%float.
Definition num5 : float := 5%float.

(** [filter.year.min < 1950 || filter.year.max > 2030]; an absent bound is
    [undefined], which compares false. *)
Definition yearOutOfRange (y : YearRange) : bool :=
  match year_min y with Some lo => JsNum.lt lo num1950 | None => false end
  || match year_max y with Some hi => JsNum.lt num2030 hi | None => false end.

Definition validateInput (queryEmbedding topK : JsVal) (flt : option Filter)
  : Outcome unit :=
  match queryEmbedding with
  | JArr l =>
      if negb (Nat.eqb (length l) 384)
      then Throw ("Invalid embedding dimension: expected 384, got "
                  ++ pretty (length l))
      else if truthy topK
                && (negb (isNumber topK)
                    || JsNum.lt (toNumber topK) PrimFloat.one
                    || JsNum.lt num10 (toNumber topK))
      then Throw "Invalid topK: must be a number between 1 and 10"
      else match flt with
           | Some f =>
               match f_year f with
               | Some y =>
                   if yearOutOfRange y
                   then Throw "Invalid year range: must be between 1950 and 2030"
                   else Ok tt
               | None => Ok tt
               end
           | None => Ok tt
           end
  | _ => Throw "Invalid query embedding: must be an array"
  end.

(** ** The handler *)

Definition getField (o : gmap string JsVal) (k : string) : JsVal :=
  default JUndef (o !! k).

(** [candidate.score], read as a number, and [candidate.embedding]. *)
Definition scoreOf (o : gmap string JsVal) : float :=
  toNumber (getField o "score").
Definition embeddingField (o : gmap string JsVal) : JsVal :=
  getField o "embedding".

Definition vector (e : list float) : JsVal := JArr (map JNum e).

(** [({ embedding, ...rest }) => rest]. *)
Definition stripEmbedding (o : gmap string JsVal) : gmap string JsVal :=
  delete "embedding" o.

Record Response : Type := mkResponse {
  status : Z;
  error : option string;
  results : list (gmap string JsVal);
  metadata : gmap string JsVal
}.

Definition count (n : nat) : JsVal := JNum (JsNum.ofNat n).

(** [!!filter]: a filter object, even an empty one, is truthy. *)
Definition present (flt : option Filter) : bool :=
  match flt with Some _ => true | None => false end.

(** The destructuring default [topK = 5] applies to an absent property
    only. *)
Definition defaultTopK (v : JsVal) : JsVal :=
  match v with JUndef => JNum num5 | _ => v end.

Section Handler.

Variable cosineSimilarity : JsVal -> JsVal -> float.

(** The object literal built for every filtered paper. *)
Definition scored (query : JsVal) (paper : Paper) : gmap string JsVal :=
  <["doc_id" := JStr (doc_id paper)]>
  (<["doc_title" := JStr (doc_title paper)]>
  (<["year" := optNum (year paper)]>
  (<["url" := optStr (url paper)]>
  (<["chunk_id" := JStr (chunk_id paper)]>
  (<["text" := JStr (text paper)]>
  (<["embedding" := vector (embedding paper)]>
  (<["score" := JNum (cosineSimilarity query (vector (embedding paper)))]>
   ∅))))))).

(** [(a, b) => b.score - a.score]. *)
Definition byScoreDesc (a b : gmap string JsVal) : float :=
  PrimFloat.sub (scoreOf b) (scoreOf a).

(** Score, sort and diversify: the ranking steps of the handler. *)
Definition rank (query : JsVal) (filteredPapers : list Paper)
    (maxResults : float) : list (gmap string JsVal) :=
  let similarities := sortBy byScoreDesc (map (scored query) filteredPapers) in
  mmrDiversification scoreOf embeddingField cosineSimilarity
                     similarities lambda03 maxResults.

Definition emptyMetadata (papers : list Paper) (flt : option Filter)
  : gmap string JsVal :=
  <["total_chunks" := count (length papers)]>
  (<["filtered_chunks" := JNum PrimFloat.zero]>
  (<["filter_applied" := JBool (present flt)]> ∅)).

Definition fullMetadata (papers filteredPapers : list Paper)
    (results : list (gmap string JsVal)) (flt : option Filter)
  : gmap string JsVal :=
  <["total_chunks" := count (length papers)]>
  (<["filtered_chunks" := count (length filteredPapers)]>
  (<["returned_chunks" := count (length results)]>
  (<["filter_applied" := JBool (present flt)]>
  (<["mmr_diversification" := JBool true]> ∅)))).

(** The body of the [try] block, for a typed request body and corpus: the
    filter is an object of the shape the filter engine reads and the corpus
    an array of chunk records.  A body or corpus of another shape (a [null]
    body, a keyword that is not a string, a corpus file holding an object)
    passes the validation and makes a later step throw a [TypeError], which
    the [catch] block answers with status 500; such inputs are outside of
    [Request] and [StoreRead]. *)
Definition search (req : Request) (now : Z) (store : StoreRead)
  : M Response :=
  let topK := defaultTopK (topK req) in
  run lift (validateInput (queryEmbedding req) topK (req_filter req));
  do papers <- loadPapers now store;
  let filteredPapers := applyFilters papers (req_filter req) in
  if Nat.eqb (length filteredPapers) 0
  then ret (mkResponse 200 None [] (emptyMetadata papers (req_filter req)))
  else
    let diversifiedResults :=
      rank (queryEmbedding req) filteredPapers (toNumber topK) in
    let results := map stripEmbedding diversifiedResults in
    ret (mkResponse 200 None results
           (fullMetadata papers filteredPapers results (req_filter req))).

(** The [catch] block: [error.message || 'Internal server error'], and
    status [400] exactly when the message includes ['Invalid']. *)
Definition errorResponse (message : string) : Response :=
  mkResponse
    (if JsString.includes message "Invalid" then 400 else 500)
    (Some (if String.eqb message EmptyString
           then "Internal server error"%string else message))
    []
    (<["error" := JBool true]> ∅).

Definition POST (req : Request) (now : Z) (store : StoreRead)
    (s : Server) : Response * Server :=
  match search req now store s with
  | (Ok r, s') => (r, s')
  | (Throw e, s') => (errorResponse e, s')
  end.

End Handler.

(** ** The selection rule, stated declaratively *)

Section Greedy.

Context {A : Type}.

(** [x] is at index [b] of [l]; no element of [l] has a larger value of
    [f], and every element before index [b] has a smaller one: [x] is the
    first maximiser. *)
Definition firstArgmax (f : A -> float) (l : list A) (b : nat) (x : A)
  : Prop :=
  nth_error l b = Some x
  /\ (forall j c, nth_error l j = Some c -> JsNum.lt (f x) (f c) = false)
  /\ (forall j c, (j < b)%nat -> nth_error l j = Some c ->
                  JsNum.le (f x) (f c) = false).

(** What the scan knows after the prefix [pre]: nothing in [pre] beats
    [bestScore], and either nothing was taken yet or [bestIdx] is the
    first maximiser of [pre]. *)
Definition scanInv (f : A -> float) (pre : list A) (bestIdx : nat)
    (bestScore : float) : Prop :=
  (forall j c, nth_error pre j = Some c -> JsNum.lt bestScore (f c) = false)
  /\ ((bestIdx = 0%nat /\ bestScore = PrimFloat.neg_infinity)
      \/ (exists x, nth_error pre bestIdx = Some x /\ bestScore = f x
          /\ forall j c, (j < bestIdx)%nat -> nth_error pre j = Some c ->
                         JsNum.le (f x) (f c) = false)).

(** A greedy run: while fewer than [K] candidates are selected and some
    remain, the first maximiser of [sc selected] moves from [remaining]
    to the end of [selected]. *)
Inductive GreedyRun (sc : list A -> A -> float) (K : float)
  : list A -> list A -> list A -> Prop :=
| greedy_stop selected remaining :
    JsNum.lenLt (length selected) K = false \/ remaining = [] ->
    GreedyRun sc K selected remaining selected
| greedy_pick selected remaining b x out :
    JsNum.lenLt (length selected) K = true ->
    firstArgmax (sc selected) remaining b x ->
    GreedyRun sc K (selected ++ [x])
              (firstn b remaining ++ skipn (S b) remaining) out ->
    GreedyRun sc K selected remaining out.

Variable score : A -> float.
Variable embeddingOf : A -> JsVal.
Variable cosineSimilarity : JsVal -> JsVal -> float.

(** The score as the specification words it: the maximum is taken over
    the similarities to the selected items only. *)
Definition pairwiseMax (selected : list A) (c : A) : float :=
  match selected with
  | [] => PrimFloat.zero
  | s :: rest =>
      fold_left
        (fun acc t =>
           JsNum.Math_max acc
             (cosineSimilarity (embeddingOf c) (embeddingOf t)))
        rest (cosineSimilarity (embeddingOf c) (embeddingOf s))
  end.

Definition pairwiseMmrScore (lambda : float) (selected : list A) (c : A)
  : float :=
  PrimFloat.sub
    (PrimFloat.mul lambda (score c))
    (PrimFloat.mul (PrimFloat.sub PrimFloat.one lambda)
                   (pairwiseMax selected c)).

End Greedy.

(** A number in [1, 10], integer or not. *)
Definition isNumber1to10 (v : JsVal) : bool :=
  match v with
  | JNum x => JsNum.le PrimFloat.one x && JsNum.le x num10
  | _ => false
  end.

(** An array of exactly 384 numbers, as the specification words the
    constraint on the query embedding. *)
Definition isNumberVector384 (v : JsVal) : bool :=
  match v with
  | JArr l => Nat.eqb (length l) 384 && forallb isNumber l
  | _ => false
  end.

(** The fields of a result record. *)
Definition resultFields : list string :=
  ["doc_id"; "doc_title"; "year"; "url"; "chunk_id"; "text"; "score"]%string.

(** An integer in [1, 10], as the specification words the bound on
    [topK]. *)
Definition isInteger1to10 (v : JsVal) : bool :=
  match v with
  | JNum x => existsb (fun k => JsNum.eq x (JsNum.ofNat k)) (seq 1 10)
  | _ => false
  end.

(** ** Cosine similarity *)

Definition numbers (v : JsVal) : list float :=
  match v with
  | JArr l => map toNumber l
  | _ => []
  end.

Definition dot (a b : list float) : float :=
  fold_left (fun acc xy => PrimFloat.add acc (PrimFloat.mul (fst xy) (snd xy)))
            (combine a b) PrimFloat.zero.

(** Modelled from the spec: the similarity scorer [utils/cosine] is imported
    by the route but is not among the sources.  The specification gives it
    as the dot product divided by the product of the Euclidean norms, and
    [0] when either norm is zero.  The handler and the ranker take the
    scorer as a parameter; this instance is used to run them on data. *)
Definition cosineSimilaritySpec (a b : JsVal) : float :=
  let va := numbers a in
  let vb := numbers b in
  let normA := PrimFloat.sqrt (dot va va) in
  let normB := PrimFloat.sqrt (dot vb vb) in
  if JsNum.eq normA PrimFloat.zero || JsNum.eq normB PrimFloat.zero
  then PrimFloat.zero
  else PrimFloat.div (dot va vb) (PrimFloat.mul normA normB).

(** ** Sample data *)

Module Sample.

(** A vector of dimension 384 whose first two coordinates are given. *)
Definition vec (x y : float) : list float :=
  x :: y :: repeat PrimFloat.zero 382.

Definition query : JsVal := vector (vec 1 0).

Definition paper (id : string) (yr : option float) (e : list float) : Paper :=
  mkPaper id ("Title " ++ id) yr None ("chunk-" ++ id) ("Text of " ++ id) e.

Definition pa : Paper := paper "a" (Some 2019%float) (vec 4 3).
Definition pb : Paper := paper "b" (Some 2020%float) (vec 1 (-2)).
Definition pc : Paper := paper "c" None (vec 3 (-4)).

Definition corpus : list Paper := [pa; pb; pc].

Definition request (k : JsVal) (flt : option Filter) : Request :=
  mkRequest query k flt.

Definition emptyFilter : Filter := mkFilter None None None.

Definition yearsOnly (lo hi : option float) : Filter :=
  mkFilter (Some (mkYearRange lo hi)) None None.

(** The three candidates, scored against [query]. *)
Definition oa : gmap string JsVal := scored cosineSimilaritySpec query pa.
Definition ob : gmap string JsVal := scored cosineSimilaritySpec query pb.
Definition oc : gmap string JsVal := scored cosineSimilaritySpec query pc.

(** A server whose cache was filled at time [1000]. *)
Definition warm : Server := mkServer (Some corpus) (Some 1000) 1.

End Sample.

(** ** The filter as one predicate *)

(** The record-wise reading of the filter: a paper passes when it passes
    every sub-filter that is present. *)
Definition passesYear (y : YearRange) (p : Paper) : bool :=
  match year_min y with Some lo => yearAtLeast lo p | None => true end
  && match year_max y with Some hi => yearAtMost hi p | None => true end.

Definition passesKeywords (k : Keywords) (p : Paper) : bool :=
  match kw_include k with
  | Some inc =>
      if nonEmpty inc then matchesAny (map JsString.toLowerCase inc) p
      else true
  | None => true
  end
  && match kw_exclude k with
     | Some exc =>
         if nonEmpty exc
         then negb (matchesAny (map JsString.toLowerCase exc) p)
         else true
     | None => true
     end.

Definition passesDocIds (ids : list string) (p : Paper) : bool :=
  if nonEmpty ids then existsb (String.eqb (doc_id p)) ids else true.

Definition passes (flt : option Filter) (p : Paper) : bool :=
  match flt with
  | None => true
  | Some f =>
      match f_year f with Some y => passesYear y p | None => true end
      && match f_keywords f with Some k => passesKeywords k p | None => true end
      && match f_doc_ids f with Some ids => passesDocIds ids p | None => true end
  end.

(** ** The client: query embedding and search request *)

Module Client.

(** [ToInt32]: the signed 32-bit integer congruent to [z]. *)
Definition toInt32 (z : Z) : Z := (z + 2 ^ 31) mod 2 ^ 32 - 2 ^ 31.

(** One round of the loop over the characters:
    [hash = ((hash << 5) - hash) + char; hash = hash & hash].  The shift
    works on 32-bit integers; the subtraction and the addition are exact
    on numbers of this size. *)
Definition hashStep (hash char : Z) : Z :=
  toInt32 (toInt32 (toInt32 hash * 2 ^ 5) - hash + char).

(** The hash of a text, given as its UTF-16 code units. *)
Definition textHash (codes : list Z) : Z := fold_left hashStep codes 0.

(** The code units of an ASCII text, one per character.  A text outside
    ASCII is given to [textHash] as its list of UTF-16 code units. *)
Definition codeUnits (text : string) : list Z :=
  map (fun c => Z.of_nat (nat_of_ascii c)) (list_ascii_of_string text).

(** The number that is the integer [z] (exact below [2^53]). *)
Definition ofZ (z : Z) : float :=
  if z <? 0 then PrimFloat.opp (PrimFloat.of_uint63 (Uint63.of_Z (- z)))
  else PrimFloat.of_uint63 (Uint63.of_Z z).

Definition tenth : float := 0x1.999999999999ap-4%float.

Section Embed.

(** [Math.sin] is not an operation of binary64; it stays a parameter. *)
Variable Math_sin : float -> float.

(** [embedQuery(text)]: outside of a browser it throws; otherwise entry
    [i] of the 384 is [Math.sin(hash + i) * 0.1]. *)
Definition embedQuery (inBrowser : bool) (codes : list Z)
  : Outcome (list float) :=
  if negb inBrowser
  then Throw "Embedding generation is only available in the browser"
  else
    let hash := textHash codes in
    Ok (map (fun i => PrimFloat.mul (Math_sin (ofZ (hash + Z.of_nat i))) tenth)
            (seq 0 384)).

(** [JSON.stringify] writes the numbers that are not finite as [null],
    and [-0] as [0]. *)
Definition jsonNumber (x : float) : JsVal :=
  if JsNum.isNaN x || PrimFloat.is_infinity x then JNull
  else if JsNum.eq x PrimFloat.zero then JNum PrimFloat.zero
  else JNum x.

(** The body [handleSearch] posts to the search route: the embedding of
    the query, the [topK] of the slider and the empty filter object. *)
Definition searchRequest (embedding : list float) (topK : nat) : Request :=
  mkRequest (JArr (map jsonNumber embedding)) (count topK)
            (Some (mkFilter None None None)).

End Embed.

(** What [handleSearch] makes of the answer of the search route: a status
    outside of 200..299 is reported as ['Search failed'], a body with an
    [error] is reported by that message, and otherwise the results are
    passed on as the chunks of the question. *)
Definition afterSearch (response : Response)
  : Outcome (list (gmap string JsVal)) :=
  if negb ((200 <=? status response) && (status response <=? 299))
  then Throw "Search failed"
  else match error response with
       | Some message =>
           if String.eqb message EmptyString then Ok (results response)
           else Throw message
       | None => Ok (results response)
       end.

End Client.

(** ** Reachable server states *)


(** * Properties *)

(** ** Order of binary64 numbers *)

Module JsNumFacts.

Import JsNum.

Ltac sf_cases :=
  repeat match goal with
  | s : bool |- _ => destruct s
  | |- context [Z.compare ?a ?b] => destruct (Z.compare_spec a b)
  | H : context [Z.compare ?a ?b] |- _ => destruct (Z.compare_spec a b)
  | |- context [Pos.compare_cont Eq ?a ?b] =>
      change (Pos.compare_cont Eq a b) with (Pos.compare a b);
      destruct (Pos.compare_spec a b)
  | H : context [Pos.compare_cont Eq ?a ?b] |- _ =>
      change (Pos.compare_cont Eq a b) with (Pos.compare a b) in H;
      destruct (Pos.compare_spec a b)
  end; simpl in *; try congruence; try lia.

Ltac to_spec :=
  unfold lt, le, eq, isNaN, PrimFloat.is_nan in *;
  rewrite ?FloatAxioms.ltb_spec, ?FloatAxioms.leb_spec,
    ?FloatAxioms.eqb_spec in *.

Lemma SFltb_irrefl x : SFltb x x = false.
Proof. unfold SFltb; destruct x; simpl; sf_cases. Qed.

Lemma SFltb_leb_false a b c :
  SFltb a b = true -> SFltb a c = false -> SFleb b c = false.
Proof.
  unfold SFltb, SFleb; destruct a, b, c; simpl; try congruence; sf_cases.
Qed.

Lemma SFleb_false_ltb a b : SFleb a b = false -> SFltb a b = false.
Proof. unfold SFltb, SFleb; destruct (SFcompare a b) as [[]|]; congruence. Qed.

Lemma SFleb_trans a b c :
  SFleb a b = true -> SFleb b c = true -> SFleb a c = true.
Proof.
  unfold SFleb; destruct a, b, c; simpl; try congruence; sf_cases.
Qed.

Lemma SFleb_total a b :
  a <> S754_nan -> b <> S754_nan -> SFltb a b = false -> SFleb b a = true.
Proof.
  unfold SFltb, SFleb; destruct a, b; simpl; try congruence; sf_cases.
Qed.

Lemma SFleb_ltb a b : SFleb a b = true -> SFltb b a = false.
Proof.
  unfold SFltb, SFleb; destruct a, b; simpl; try congruence; sf_cases.
Qed.

Lemma isNaN_spec x :
  isNaN x = match Prim2SF x with S754_nan => true | _ => false end.
Proof.
  to_spec. unfold SFeqb.
  destruct (Prim2SF x) as [s|s| |s m e]; simpl;
    try reflexivity; try (destruct s; reflexivity).
  rewrite Z.compare_refl.
  change (Pos.compare_cont Eq m m) with (Pos.compare m m).
  rewrite Pos.compare_refl. destruct s; reflexivity.
Qed.

Lemma lt_irrefl x : lt x x = false.
Proof. to_spec. apply SFltb_irrefl. Qed.

Lemma lt_le_false a b c : lt a b = true -> lt a c = false -> le b c = false.
Proof. to_spec. apply SFltb_leb_false. Qed.

Lemma le_false_lt a b : le a b = false -> lt a b = false.
Proof. to_spec. apply SFleb_false_ltb. Qed.

Lemma lt_lt_false a b c : lt a b = true -> lt a c = false -> lt b c = false.
Proof. intros H1 H2. apply le_false_lt. eapply lt_le_false; eauto. Qed.

Lemma le_trans a b c : le a b = true -> le b c = true -> le a c = true.
Proof. to_spec. apply SFleb_trans. Qed.

Lemma le_total a b :
  isNaN a = false -> isNaN b = false -> lt a b = false -> le b a = true.
Proof.
  rewrite !isNaN_spec. to_spec. intros Ha Hb.
  apply SFleb_total; intros E; rewrite E in *; discriminate.
Qed.

Lemma le_not_lt a b : le a b = true -> lt b a = false.
Proof. to_spec. apply SFleb_ltb. Qed.

Lemma lt_le a b : lt a b = true -> le a b = true.
Proof.
  to_spec. unfold SFltb, SFleb.
  destruct (SFcompare (Prim2SF a) (Prim2SF b)) as [[]|]; congruence.
Qed.

Lemma le_refl a : isNaN a = false -> le a a = true.
Proof. intros H. apply le_total; auto using lt_irrefl. Qed.

Lemma le_notNaN a b : le a b = true -> isNaN a = false /\ isNaN b = false.
Proof.
  rewrite !isNaN_spec. to_spec. unfold SFleb.
  destruct (Prim2SF a), (Prim2SF b); simpl; auto; discriminate.
Qed.

(** Nothing is below [-Infinity], and what is not above it is below
    nothing. *)
Lemma not_above_neg_infinity x y :
  lt PrimFloat.neg_infinity x = false -> lt y x = false.
Proof.
  to_spec. change (Prim2SF PrimFloat.neg_infinity) with (S754_infinity true).
  unfold SFltb. destruct (Prim2SF x), (Prim2SF y); simpl; sf_cases.
Qed.


(** *** Rounding keeps the sign of a difference *)

Lemma fexp64 e : fexp prec emax e = Z.max (e - 53) emin64.
Proof. reflexivity. Qed.

Lemma digits_succ p : Zpos (Pos.succ p) = Zpos p + 1.
Proof. lia. Qed.

Lemma pow2_succ d : 0 <= d -> 2 ^ (d + 1) = 2 * 2 ^ d.
Proof. intros. rewrite Z.pow_add_r by lia. lia. Qed.

Lemma digits_bounds m :
  2 ^ (Zpos (digits2_pos m) - 1) <= Zpos m < 2 ^ Zpos (digits2_pos m).
Proof.
  induction m as [m IH|m IH|]; simpl digits2_pos; rewrite ?digits_succ.
  - pose proof (pow2_succ (Zpos (digits2_pos m) - 1) ltac:(lia)) as E1.
    pose proof (pow2_succ (Zpos (digits2_pos m)) ltac:(lia)) as E2.
    replace (Zpos (digits2_pos m) - 1 + 1) with (Zpos (digits2_pos m)) in E1 by lia.
    replace (Zpos (digits2_pos m) + 1 - 1) with (Zpos (digits2_pos m)) by lia.
    lia.
  - pose proof (pow2_succ (Zpos (digits2_pos m) - 1) ltac:(lia)) as E1.
    pose proof (pow2_succ (Zpos (digits2_pos m)) ltac:(lia)) as E2.
    replace (Zpos (digits2_pos m) - 1 + 1) with (Zpos (digits2_pos m)) in E1 by lia.
    replace (Zpos (digits2_pos m) + 1 - 1) with (Zpos (digits2_pos m)) by lia.
    lia.
  - simpl. lia.
Qed.

Lemma shr_1_ge mrs k : 0 <= k -> 2 * k <= shr_m mrs -> k <= shr_m (shr_1 mrs).
Proof.
  destruct mrs as [m r s]; cbn [shr_m]. intros Hk H.
  destruct m as [|[p|p|]|[p|p|]]; cbn [shr_1 shr_m]; lia.
Qed.

Lemma iter_shr_ge p : forall mrs k,
  0 <= k -> 2 ^ Zpos p * k <= shr_m mrs -> k <= shr_m (SpecFloat.iter_pos shr_1 p mrs).
Proof.
  induction p as [p IH|p IH|]; intros mrs k Hk H; cbn [SpecFloat.iter_pos].
  - assert (E : 2 ^ Zpos p~1 = 2 * (2 ^ Zpos p * 2 ^ Zpos p)).
    { replace (Zpos p~1) with (Zpos p + Zpos p + 1) by lia.
      rewrite !Z.pow_add_r by lia. rewrite Z.pow_1_r. ring. }
    assert (0 < 2 ^ Zpos p) by (apply Z.pow_pos_nonneg; lia).
    apply IH; auto. apply IH; [nia|]. apply shr_1_ge; [nia|]. rewrite E in H. nia.
  - assert (E : 2 ^ Zpos p~0 = 2 ^ Zpos p * 2 ^ Zpos p).
    { replace (Zpos p~0) with (Zpos p + Zpos p) by lia.
      rewrite Z.pow_add_r by lia. reflexivity. }
    assert (0 < 2 ^ Zpos p) by (apply Z.pow_pos_nonneg; lia).
    apply IH; auto. apply IH; [nia|]. rewrite E in H. nia.
  - apply shr_1_ge; auto.
Qed.

Lemma shr_record_of_loc_m m l : shr_m (shr_record_of_loc m l) = m.
Proof. destruct l as [|[]]; reflexivity. Qed.

Lemma shr_fexp_pos m e l :
  emin64 <= e ->
  1 <= shr_m (fst (shr_fexp prec emax (Zpos m) e l))
  /\ emin64 <= snd (shr_fexp prec emax (Zpos m) e l).
Proof.
  intros He. unfold shr_fexp, shr. rewrite fexp64. cbn [Zdigits2].
  pose proof (digits_bounds m) as [Hlo _].
  destruct (Z.max (Zpos (digits2_pos m) + e - 53) emin64 - e) as [|p|p] eqn:En;
    cbn [fst snd]; rewrite ?shr_record_of_loc_m; try lia.
  split; [|lia].
  apply iter_shr_ge; [lia|]. rewrite shr_record_of_loc_m, Z.mul_1_r.
  apply Z.le_trans with (2 ^ (Zpos (digits2_pos m) - 1)); auto.
  apply Z.pow_le_mono_r; lia.
Qed.

Lemma round_nearest_even_ge m l : m <= round_nearest_even m l.
Proof.
  destruct l as [|[]]; cbn [round_nearest_even]; try lia.
  destruct (Z.even m); lia.
Qed.

Lemma binary_round_aux_signed s m e l :
  emin64 <= e -> signed s (binary_round_aux prec emax s (Zpos m) e l).
Proof.
  intros He. unfold binary_round_aux.
  pose proof (shr_fexp_pos m e l He) as [H1 H2].
  destruct (shr_fexp prec emax (Zpos m) e l) as [mrs' e'].
  cbn [fst snd] in H1, H2.
  pose proof (round_nearest_even_ge (shr_m mrs') (loc_of_shr_record mrs')) as Hr.
  destruct (round_nearest_even (shr_m mrs') (loc_of_shr_record mrs'))
    as [|m'|m'] eqn:Em; try lia.
  pose proof (shr_fexp_pos m' e' loc_Exact H2) as [H3 _].
  destruct (shr_fexp prec emax (Zpos m') e' loc_Exact) as [mrs'' e''].
  cbn [fst] in H3.
  destruct (shr_m mrs'') as [|m''|m'']; try lia.
  destruct (e'' <=? emax - prec); reflexivity.
Qed.

Lemma binary_round_signed s m e :
  emin64 <= e -> signed s (binary_round prec emax s m e).
Proof.
  intros He. unfold binary_round, shl_align. rewrite fexp64.
  destruct (Z.max (Zpos (digits2_pos m) + e - 53) emin64 - e) eqn:En;
    apply binary_round_aux_signed; lia.
Qed.


Lemma iter_xO_val m d : Zpos (Pos.iter xO m d) = Zpos m * 2 ^ Zpos d.
Proof.
  induction d as [|d IH] using Pos.peano_ind.
  - cbn [Pos.iter]. lia.
  - rewrite Pos.iter_succ, Pos2Z.inj_succ, Z.pow_succ_r by lia.
    rewrite Pos2Z.inj_xO, IH. ring.
Qed.

Lemma shl_align_val m e e' :
  e' <= e -> Zpos (fst (shl_align m e e')) = Zpos m * 2 ^ (e - e').
Proof.
  intros H. unfold shl_align.
  destruct (e' - e) as [|d|d] eqn:Ed; cbn [fst]; try lia.
  - replace (e - e') with 0 by lia. lia.
  - rewrite iter_xO_val. f_equal. f_equal. lia.
Qed.

Lemma bounded_canonical m e :
  bounded prec emax m e = true ->
  Z.max (Zpos (digits2_pos m) + e - 53) emin64 = e.
Proof.
  unfold bounded, canonical_mantissa. rewrite fexp64.
  intros H. apply andb_prop in H as [H _]. apply Z.eqb_eq in H. exact H.
Qed.

(** For canonical mantissas the lexicographic comparison of exponent and
    mantissa is the comparison of the values. *)
Lemma compare_aligned mx ex my ey :
  bounded prec emax mx ex = true -> bounded prec emax my ey = true ->
  match ex ?= ey with
  | Eq => Pos.compare_cont Eq mx my
  | Lt => Lt
  | Gt => Gt
  end
  = (Zpos mx * 2 ^ (ex - Z.min ex ey) ?= Zpos my * 2 ^ (ey - Z.min ex ey)).
Proof.
  intros Hx Hy.
  apply bounded_canonical in Hx, Hy.
  pose proof (digits_bounds mx) as [Lx Ux].
  pose proof (digits_bounds my) as [Ly Uy].
  destruct (Z.compare_spec ex ey) as [E|E|E].
  - subst ey. rewrite Z.min_id, Z.sub_diag, Z.pow_0_r, !Z.mul_1_r. reflexivity.
  - rewrite Z.min_l by lia. rewrite Z.sub_diag, Z.pow_0_r, Z.mul_1_r.
    symmetry. apply Z.compare_lt_iff.
    assert (Dy : Zpos (digits2_pos my) = 53) by lia.
    assert (Dx : Zpos (digits2_pos mx) <= 53) by lia.
    rewrite Dy in Ly. change (2 ^ (53 - 1)) with 4503599627370496 in Ly.
    assert (Zpos mx < 2 ^ 53).
    { eapply Z.lt_le_trans; [exact Ux|]. apply Z.pow_le_mono_r; lia. }
    change (2 ^ 53) with 9007199254740992 in *.
    assert (2 ^ 1 <= 2 ^ (ey - ex)) by (apply Z.pow_le_mono_r; lia).
    rewrite Z.pow_1_r in *. nia.
  - rewrite Z.min_r by lia. rewrite Z.sub_diag, Z.pow_0_r, Z.mul_1_r.
    symmetry. apply Z.compare_gt_iff.
    assert (Dx : Zpos (digits2_pos mx) = 53) by lia.
    assert (Dy : Zpos (digits2_pos my) <= 53) by lia.
    rewrite Dx in Lx. change (2 ^ (53 - 1)) with 4503599627370496 in Lx.
    assert (Zpos my < 2 ^ 53).
    { eapply Z.lt_le_trans; [exact Uy|]. apply Z.pow_le_mono_r; lia. }
    change (2 ^ 53) with 9007199254740992 in *.
    assert (2 ^ 1 <= 2 ^ (ex - ey)) by (apply Z.pow_le_mono_r; lia).
    rewrite Z.pow_1_r in *. nia.
Qed.

Lemma SFcompare_finite sx mx ex sy my ey :
  bounded prec emax mx ex = true -> bounded prec emax my ey = true ->
  SFcompare (S754_finite sx mx ex) (S754_finite sy my ey)
  = Some (cond_Zopp sx (Zpos mx * 2 ^ (ex - Z.min ex ey))
          ?= cond_Zopp sy (Zpos my * 2 ^ (ey - Z.min ex ey))).
Proof.
  intros Hx Hy. cbn [SFcompare]. f_equal.
  pose proof (compare_aligned mx ex my ey Hx Hy) as E.
  assert (0 < 2 ^ (ex - Z.min ex ey)) by (apply Z.pow_pos_nonneg; lia).
  assert (0 < 2 ^ (ey - Z.min ex ey)) by (apply Z.pow_pos_nonneg; lia).
  destruct sx, sy; cbn [cond_Zopp].
  - rewrite Z.compare_opp.
    rewrite (Z.compare_antisym (Zpos mx * 2 ^ (ex - Z.min ex ey))), <- E.
    destruct (ex ?= ey); reflexivity.
  - symmetry. apply Z.compare_lt_iff. nia.
  - symmetry. apply Z.compare_gt_iff. nia.
  - exact E.
Qed.


Lemma SFltb_zero_signed s r :
  signed s r -> SFltb (S754_zero false) r = negb s.
Proof.
  unfold SFltb. destruct r as [| s' | | s' m e]; cbn; try tauto;
    intros ->; destruct s; reflexivity.
Qed.

Lemma bounded_emin m e : bounded prec emax m e = true -> emin64 <= e.
Proof. intros H. apply bounded_canonical in H. lia. Qed.

(** The sign of a difference is the order of its operands. *)
Lemma SFsub_sign x y :
  SpecFloat.valid_binary prec emax x = true ->
  SpecFloat.valid_binary prec emax y = true ->
  x <> S754_nan -> y <> S754_nan ->
  SFltb (S754_zero false) (SFsub prec emax y x) = SFltb x y.
Proof.
  intros Vx Vy Nx Ny.
  destruct x as [sx|sx| |sx mx ex], y as [sy|sy| |sy my ey];
    try congruence;
    try (destruct sx, sy; reflexivity);
    try (destruct sx; reflexivity); try (destruct sy; reflexivity).
  cbn [SpecFloat.valid_binary] in Vx, Vy.
  unfold SFltb at 2. rewrite SFcompare_finite by assumption.
  cbn [SFsub].
  pose proof (bounded_emin _ _ Vx). pose proof (bounded_emin _ _ Vy).
  rewrite !shl_align_val by lia. rewrite (Z.min_comm ey ex).
  set (X := cond_Zopp sx (Zpos mx * 2 ^ (ex - Z.min ex ey))).
  set (Y := cond_Zopp sy (Zpos my * 2 ^ (ey - Z.min ex ey))).
  unfold binary_normalize.
  destruct (Y - X) as [|d|d] eqn:Ed.
  - assert (X = Y) by lia. replace (X ?= Y) with Eq; [reflexivity|].
    symmetry. apply Z.compare_eq_iff. assumption.
  - rewrite (SFltb_zero_signed false) by (apply binary_round_signed; lia).
    replace (X ?= Y) with Lt; [reflexivity|].
    symmetry. apply Z.compare_lt_iff. lia.
  - rewrite (SFltb_zero_signed true) by (apply binary_round_signed; lia).
    replace (X ?= Y) with Gt; [reflexivity|].
    symmetry. apply Z.compare_gt_iff. lia.
Qed.

(** [b - a > 0] exactly when [a < b]: a comparator that subtracts orders
    numbers as [<] does. *)
Lemma sub_positive a b :
  isNaN a = false -> isNaN b = false ->
  lt PrimFloat.zero (PrimFloat.sub b a) = lt a b.
Proof.
  unfold isNaN, lt.
  intros Ha Hb. rewrite !FloatAxioms.ltb_spec, FloatAxioms.sub_spec.
  change (Prim2SF PrimFloat.zero) with (S754_zero false).
  unfold PrimFloat.is_nan in *. rewrite FloatAxioms.eqb_spec in Ha, Hb.
  apply SFsub_sign; try apply Prim2SF_valid.
  - intros E. rewrite E in Ha. discriminate.
  - intros E. rewrite E in Hb. discriminate.
Qed.

End JsNumFacts.

(** ** Lengths against the bounds 0 to 10 *)

Module LenFacts.

Import JsNum.

Ltac eval_num :=
  match goal with
  | |- context [Prim2SF (ofNat ?k)] =>
      let v := eval vm_compute in (Prim2SF (ofNat k)) in
      change (Prim2SF (ofNat k)) with v; cbv beta iota
  end.

Ltac scale_compare :=
  match goal with
  | |- Some (?a * ?c ?= ?m) = Some (?a ?= ?k) =>
      f_equal; change m with (k * c); symmetry;
      apply Zmult_compare_compat_r; reflexivity
  end.

Lemma cmpLen_ofNat (k n : nat) :
  (k <= 10)%nat -> cmpLen n (ofNat k) = Some (Z.of_nat n ?= Z.of_nat k).
Proof.
  intros Hk. unfold cmpLen.
  do 11 (destruct k as [|k]; [eval_num; try reflexivity; scale_compare | ]).
  lia.
Qed.

Lemma lenLt_ofNat (k n : nat) :
  (k <= 10)%nat -> lenLt n (ofNat k) = (n <? k)%nat.
Proof.
  intros Hk. unfold lenLt. rewrite cmpLen_ofNat by assumption.
  destruct (Nat.ltb_spec n k); destruct (Z.compare_spec (Z.of_nat n) (Z.of_nat k));
    try reflexivity; lia.
Qed.

Lemma lenLe_ofNat (k n : nat) :
  (k <= 10)%nat -> lenLe n (ofNat k) = (n <=? k)%nat.
Proof.
  intros Hk. unfold lenLe. rewrite cmpLen_ofNat by assumption.
  destruct (Nat.leb_spec n k); destruct (Z.compare_spec (Z.of_nat n) (Z.of_nat k));
    try reflexivity; lia.
Qed.

End LenFacts.

(** ** The ranker *)

Section MMRFacts.

Context {A : Type}.
Variable score : A -> float.
Variable embeddingOf : A -> JsVal.
Variable cosineSimilarity : JsVal -> JsVal -> float.

Abbreviation mmrScoreOf := (mmrScore score embeddingOf cosineSimilarity).
Abbreviation scanBestOf := (scanBest score embeddingOf cosineSimilarity).
Abbreviation bestIndexOf := (bestIndex score embeddingOf cosineSimilarity).
Abbreviation mmrLoopOf := (mmrLoop score embeddingOf cosineSimilarity).
Abbreviation diversify :=
  (mmrDiversification score embeddingOf cosineSimilarity).

Lemma nth_error_snoc (pre : list A) (c : A) j y :
  nth_error (pre ++ [c]) j = Some y ->
  nth_error pre j = Some y \/ (j = length pre /\ y = c).
Proof.
  intros H. destruct (Nat.lt_ge_cases j (length pre)) as [Hj|Hj].
  - left. rewrite nth_error_app1 in H by assumption. exact H.
  - right. rewrite nth_error_app2 in H by assumption.
    destruct (j - length pre)%nat as [|d] eqn:Ed; simpl in H.
    + inversion H. split; [lia|reflexivity].
    + destruct d; discriminate.
Qed.

Lemma scanBest_inv lambda selected rest : forall pre bestIdx bestScore,
  scanInv (mmrScoreOf lambda selected) pre bestIdx bestScore ->
  let r := scanBestOf lambda selected rest (length pre) bestIdx bestScore in
  scanInv (mmrScoreOf lambda selected) (pre ++ rest) (fst r) (snd r).
Proof.
  induction rest as [|c rest IH]; intros pre bestIdx bestScore Inv; simpl.
  - rewrite app_nil_r. exact Inv.
  - replace (pre ++ c :: rest) with ((pre ++ [c]) ++ rest)
      by (rewrite <- app_assoc; reflexivity).
    replace (S (length pre)) with (length (pre ++ [c]))
      by (rewrite length_app; simpl; lia).
    destruct Inv as [HA HB].
    destruct (JsNum.lt bestScore (mmrScoreOf lambda selected c)) eqn:Hlt;
      apply IH; split.
    + intros j y Hy. apply nth_error_snoc in Hy as [Hy|[_ ->]].
      * eapply JsNumFacts.lt_lt_false; eauto.
      * apply JsNumFacts.lt_irrefl.
    + right. exists c. split; [|split; [reflexivity|]].
      * rewrite nth_error_app2 by lia. rewrite Nat.sub_diag. reflexivity.
      * intros j y Hj Hy. rewrite nth_error_app1 in Hy by assumption.
        eapply JsNumFacts.lt_le_false; eauto.
    + intros j y Hy. apply nth_error_snoc in Hy as [Hy|[_ ->]]; eauto.
    + destruct HB as [HB|(x & Hx & Hs & Hbefore)]; [left; exact HB|].
      right. exists x. split; [|split; [exact Hs|]].
      * rewrite nth_error_app1; [exact Hx|].
        apply nth_error_Some. congruence.
      * intros j y Hj Hy. apply (Hbefore j y Hj).
        assert (bestIdx < length pre)%nat
          by (apply nth_error_Some; congruence).
        rewrite nth_error_app1 in Hy by lia. exact Hy.
Qed.

(** The index found by the scan of a non-empty list is the first
    maximiser of the MMR score. *)
Lemma bestIndex_firstArgmax lambda selected remaining :
  remaining <> [] ->
  exists x,
    firstArgmax (mmrScoreOf lambda selected) remaining
                (bestIndexOf lambda selected remaining) x.
Proof.
  intros Hne. unfold bestIndexOf.
  pose proof (scanBest_inv lambda selected remaining [] 0%nat
                PrimFloat.neg_infinity) as H.
  simpl in H.
  destruct H as [HA HB].
  { split; [intros [|j] c Hc; discriminate | left; auto]. }
  destruct HB as [[Hb Hs]|(x & Hx & Hs & Hbefore)].
  - destruct remaining as [|r rest]; [congruence|].
    exists r. rewrite Hb. split; [reflexivity|split].
    + intros j c Hc. apply JsNumFacts.not_above_neg_infinity.
      rewrite <- Hs. eauto.
    + intros j c Hj. lia.
  - exists x. split; [exact Hx|split].
    + intros j c Hc. rewrite <- Hs. eauto.
    + exact Hbefore.
Qed.

Lemma bestIndex_in_range lambda selected remaining :
  remaining <> [] ->
  exists x, nth_error remaining (bestIndexOf lambda selected remaining) = Some x.
Proof.
  intros Hne.
  destruct (bestIndex_firstArgmax lambda selected remaining Hne) as (x & Hx & _).
  eauto.
Qed.

Lemma removeAt_length (l : list A) b x :
  nth_error l b = Some x -> length (removeAt b l) = pred (length l).
Proof.
  intros Hx. assert (b < length l)%nat by (apply nth_error_Some; congruence).
  unfold removeAt. rewrite length_app, length_firstn, length_skipn. lia.
Qed.

Lemma removeAt_perm (l : list A) b x :
  nth_error l b = Some x -> Permutation (x :: removeAt b l) l.
Proof.
  intros Hx. apply nth_error_split in Hx as (l1 & l2 & -> & <-).
  unfold removeAt.
  rewrite firstn_app, Nat.sub_diag, firstn_all, firstn_O, app_nil_r.
  replace (skipn (S (length l1)) (l1 ++ x :: l2)) with l2.
  - apply Permutation_middle.
  - rewrite skipn_app, skipn_all2 by lia.
    replace (S (length l1) - length l1)%nat with 1%nat by lia. reflexivity.
Qed.

Lemma nonEmpty_true (l : list A) : nonEmpty l = true <-> l <> [].
Proof. destruct l; simpl; split; congruence. Qed.

(** The loop is a greedy run of the first-maximiser rule. *)
Lemma mmrLoop_greedy lambda K : forall fuel selected remaining,
  (length remaining <= fuel)%nat ->
  GreedyRun (mmrScoreOf lambda) K selected remaining
            (mmrLoopOf fuel lambda K selected remaining).
Proof.
  induction fuel as [|fuel IH]; intros selected remaining Hfuel.
  - destruct remaining; [|simpl in Hfuel; lia].
    apply greedy_stop. right. reflexivity.
  - cbn [mmrLoop].
    destruct (JsNum.lenLt (length selected) K) eqn:Hlt; cbn [andb];
      [|apply greedy_stop; left; exact Hlt].
    destruct (nonEmpty remaining) eqn:Hne.
    + apply nonEmpty_true in Hne.
      destruct (bestIndex_firstArgmax lambda selected remaining Hne)
        as (x & Hx).
      pose proof Hx as (Hnth & _). rewrite Hnth.
      eapply greedy_pick; [exact Hlt|exact Hx|].
      apply IH. fold (removeAt (bestIndexOf lambda selected remaining) remaining).
      rewrite (removeAt_length _ _ _ Hnth). lia.
    + apply greedy_stop. right. destruct remaining; [reflexivity|discriminate].
Qed.

(** The loop only appends to [selected], and what it appends is taken
    out of [remaining]. *)
Lemma mmrLoop_split lambda K : forall fuel selected remaining,
  exists taken left,
    mmrLoopOf fuel lambda K selected remaining = selected ++ taken
    /\ Permutation (taken ++ left) remaining.
Proof.
  induction fuel as [|fuel IH]; intros selected remaining.
  - exists [], remaining. simpl. rewrite app_nil_r. auto.
  - cbn [mmrLoop].
    destruct (JsNum.lenLt (length selected) K && nonEmpty remaining);
      [|exists [], remaining; rewrite app_nil_r; auto].
    destruct (nth_error remaining (bestIndexOf lambda selected remaining))
      as [x|] eqn:Hnth; [|exists [], remaining; rewrite app_nil_r; auto].
    destruct (IH (selected ++ [x])
                 (removeAt (bestIndexOf lambda selected remaining) remaining))
      as (taken & left & E & P).
    exists (x :: taken), left. split.
    + rewrite E, <- app_assoc. reflexivity.
    + simpl. rewrite <- (removeAt_perm _ _ _ Hnth). constructor. exact P.
Qed.

(** More fuel than [remaining] has elements changes nothing. *)
Lemma mmrLoop_fuel lambda K : forall fuel selected remaining,
  (length remaining <= fuel)%nat ->
  mmrLoopOf fuel lambda K selected remaining
  = mmrLoopOf (length remaining) lambda K selected remaining.
Proof.
  induction fuel as [|fuel IH]; intros selected remaining Hfuel.
  - destruct remaining; [reflexivity|simpl in Hfuel; lia].
  - destruct remaining as [|r rest] eqn:Er.
    + cbn [mmrLoop nonEmpty length]. rewrite andb_false_r. reflexivity.
    + rewrite <- Er in *. replace (length remaining) with (S (length rest))
        by (subst remaining; reflexivity).
      cbn [mmrLoop].
      destruct (JsNum.lenLt (length selected) K && nonEmpty remaining);
        [|reflexivity].
      destruct (nth_error remaining (bestIndexOf lambda selected remaining))
        as [x|] eqn:Hnth; [|reflexivity].
      pose proof (removeAt_length _ _ _ Hnth) as Hlen.
      rewrite (IH _ (removeAt _ remaining)) by (rewrite Hlen; lia).
      rewrite Hlen. subst remaining. reflexivity.
Qed.

(** With an integer bound [k] the loop fills [selected] up to [k] elements
    or until [remaining] is used up. *)
Lemma mmrLoop_length lambda k : forall fuel selected remaining,
  (k <= 10)%nat -> (length remaining <= fuel)%nat ->
  (length selected <= k)%nat ->
  length (mmrLoopOf fuel lambda (JsNum.ofNat k) selected remaining)
  = Nat.min k (length selected + length remaining).
Proof.
  induction fuel as [|fuel IH]; intros selected remaining Hk Hfuel Hsel.
  - destruct remaining; [|simpl in Hfuel; lia]. simpl. lia.
  - cbn [mmrLoop]. rewrite LenFacts.lenLt_ofNat by assumption.
    destruct (Nat.ltb_spec (length selected) k) as [Hlt|Hge]; cbn [andb];
      [|lia].
    destruct (nonEmpty remaining) eqn:Hne.
    + apply nonEmpty_true in Hne.
      destruct (bestIndex_in_range lambda selected remaining Hne) as (x & Hnth).
      rewrite Hnth. pose proof (removeAt_length _ _ _ Hnth) as Hlen.
      assert (length remaining <> 0)%nat by (destruct remaining; simpl; congruence).
      rewrite IH; rewrite ?length_app, ?Hlen; simpl; lia.
    + destruct remaining; [simpl; lia|discriminate].
Qed.

(** *** The whole function *)

Lemma mmrDiversification_small results lambda K :
  JsNum.lenLe (length results) K = true ->
  diversify results lambda K = results.
Proof. unfold mmrDiversification. intros ->. reflexivity. Qed.

Lemma mmrDiversification_greedy results lambda K :
  JsNum.lenLe (length results) K = false ->
  results <> [] ->
  exists r rest,
    results = r :: rest
    /\ GreedyRun (mmrScoreOf lambda) K [r] rest
                 (diversify results lambda K).
Proof.
  intros Hbig Hne. unfold mmrDiversification. rewrite Hbig.
  destruct results as [|r rest]; [congruence|].
  exists r, rest. split; [reflexivity|]. apply mmrLoop_greedy. lia.
Qed.

Lemma mmrDiversification_head r rest lambda K :
  hd_error (diversify (r :: rest) lambda K) = Some r.
Proof.
  unfold mmrDiversification.
  destruct (JsNum.lenLe (length (r :: rest)) K); [reflexivity|].
  destruct (mmrLoop_split lambda K (length rest) [r] rest)
    as (taken & left & -> & _).
  reflexivity.
Qed.

(** The output is drawn from the input without repetition. *)
Lemma mmrDiversification_sub results lambda K :
  exists left, Permutation (diversify results lambda K ++ left) results.
Proof.
  unfold mmrDiversification.
  destruct (JsNum.lenLe (length results) K).
  - exists []. rewrite app_nil_r. reflexivity.
  - destruct results as [|r rest]; [exists []; reflexivity|].
    destruct (mmrLoop_split lambda K (length rest) [r] rest)
      as (taken & left & -> & P).
    exists left. simpl. constructor. exact P.
Qed.

Lemma mmrDiversification_length results lambda k :
  (1 <= k <= 10)%nat ->
  length (diversify results lambda (JsNum.ofNat k))
  = Nat.min k (length results).
Proof.
  intros Hk. unfold mmrDiversification.
  rewrite LenFacts.lenLe_ofNat by lia.
  destruct (Nat.leb_spec (length results) k) as [Hle|Hgt]; [lia|].
  destruct results as [|r rest]; [simpl in Hgt; lia|].
  rewrite mmrLoop_length; simpl; lia.
Qed.

End MMRFacts.

(** ** Sorting *)

Section SortFacts.

Context {A : Type}.
Variable compareFn : A -> A -> float.

Lemma insertSorted_perm x l : Permutation (insertSorted compareFn x l) (x :: l).
Proof.
  induction l as [|y l IH]; simpl; [reflexivity|].
  destruct (JsNum.lt PrimFloat.zero (compareFn x y)); [|reflexivity].
  rewrite IH. apply perm_swap.
Qed.

Lemma sortBy_perm l : Permutation (sortBy compareFn l) l.
Proof.
  induction l as [|x l IH]; simpl; [reflexivity|].
  rewrite insertSorted_perm. constructor. exact IH.
Qed.

Lemma sortBy_length l : length (sortBy compareFn l) = length l.
Proof. apply Permutation_length, sortBy_perm. Qed.

(** The comparator subtracts keys: [compareFn a b = key b - key a]. *)
Variable key : A -> float.
Hypothesis compareFn_key :
  forall a b, compareFn a b = PrimFloat.sub (key b) (key a).

Abbreviation descending := (descendingBy key).

Lemma insertSorted_sorted x l :
  JsNum.isNaN (key x) = false ->
  Forall (fun y => JsNum.isNaN (key y) = false) l ->
  StronglySorted descending l ->
  StronglySorted descending (insertSorted compareFn x l).
Proof.
  intros Hx Hl Hs. induction Hs as [|y l Hs IH Hy]; simpl.
  - repeat constructor.
  - inversion Hl as [|? ? Ny Nl]; subst.
    rewrite compareFn_key, JsNumFacts.sub_positive by assumption.
    destruct (JsNum.lt (key x) (key y)) eqn:Hlt.
    + constructor; [apply IH; assumption|].
      rewrite insertSorted_perm. constructor; [|exact Hy].
      unfold descendingBy. apply JsNumFacts.lt_le. exact Hlt.
    + assert (Hxy : descending x y)
        by (apply JsNumFacts.le_total; assumption).
      constructor; [constructor; assumption|].
      constructor; [exact Hxy|].
      eapply List.Forall_impl; [|exact Hy]. intros z Hz. unfold descendingBy in *.
      eapply JsNumFacts.le_trans; eauto.
Qed.

Lemma sortBy_sorted l :
  Forall (fun y => JsNum.isNaN (key y) = false) l ->
  StronglySorted descending (sortBy compareFn l).
Proof.
  induction 1 as [|x l Hx Hl IH]; simpl; [constructor|].
  apply insertSorted_sorted; auto.
  rewrite sortBy_perm. exact Hl.
Qed.

End SortFacts.

(** ** The filter engine *)

Module FilterFacts.

Lemma filter_sub {A : Type} (f : A -> bool) (l : list A) x :
  In x (List.filter f l) -> In x l.
Proof. intros H. apply filter_In in H. tauto. Qed.

Lemma applyYear_sub y papers p : In p (applyYear y papers) -> In p papers.
Proof.
  unfold applyYear. destruct (year_min y), (year_max y); intros H;
    repeat (apply filter_sub in H); exact H.
Qed.

Lemma applyKeywords_sub k papers p :
  In p (applyKeywords k papers) -> In p papers.
Proof.
  unfold applyKeywords.
  destruct (kw_include k) as [inc|], (kw_exclude k) as [exc|];
    try destruct (nonEmpty inc); try destruct (nonEmpty exc); intros H;
    repeat (apply filter_sub in H); exact H.
Qed.

Lemma applyDocIds_sub ids papers p :
  In p (applyDocIds ids papers) -> In p papers.
Proof.
  unfold applyDocIds. destruct (nonEmpty ids); intros H;
    repeat (apply filter_sub in H); exact H.
Qed.

(** A year block with a bound keeps only papers that have a year. *)
Lemma applyYear_has_year y papers p :
  year_min y <> None \/ year_max y <> None ->
  In p (applyYear y papers) -> year p <> None.
Proof.
  unfold applyYear. intros Hb H.
  destruct (year_min y) as [lo|], (year_max y) as [hi|].
  - apply filter_In in H as [_ H]. unfold yearAtMost in H.
    destruct (year p); congruence.
  - apply filter_In in H as [_ H]. unfold yearAtLeast in H.
    destruct (year p); congruence.
  - apply filter_In in H as [_ H]. unfold yearAtMost in H.
    destruct (year p); congruence.
  - destruct Hb; congruence.
Qed.

End FilterFacts.

(** C4 as the specification states it fails: a year block without bounds
    filters nothing, and a paper without a year passes. *)
Lemma C4_year_block_without_bounds :
  ~ (forall papers f y p,
        f_year f = Some y -> year p = None ->
        ~ In p (applyFilters papers (Some f))).
Proof.
  intros H.
  apply (H Sample.corpus (Sample.yearsOnly None None)
           (mkYearRange None None) Sample.pc); try reflexivity.
  simpl. auto.
Qed.

(** C4, amended: when the filter has a year block that gives a lower or an
    upper bound, no paper whose [year] is absent is in the output of the
    filter engine. *)
Theorem C4_missing_year_excluded papers f y p :
  f_year f = Some y ->
  year_min y <> None \/ year_max y <> None ->
  year p = None ->
  ~ In p (applyFilters papers (Some f)).
Proof.
  intros Hy Hb Hp H. unfold applyFilters in H. rewrite Hy in H.
  assert (In p (applyYear y papers)) as Hin.
  { destruct (f_doc_ids f) as [ids|];
      [apply FilterFacts.applyDocIds_sub in H|];
      (destruct (f_keywords f) as [k|];
       [apply FilterFacts.applyKeywords_sub in H|]); exact H. }
  apply (FilterFacts.applyYear_has_year y papers p Hb Hin Hp).
Qed.

Lemma C4_missing_year_excluded_witness :
  ~ In Sample.pc
      (applyFilters Sample.corpus
         (Some (Sample.yearsOnly (Some 2019%float) None))).
Proof.
  apply (C4_missing_year_excluded Sample.corpus
           (Sample.yearsOnly (Some 2019%float) None)
           (mkYearRange (Some 2019%float) None) Sample.pc).
  - reflexivity.
  - left. discriminate.
  - reflexivity.
Defined.

(** ** The handler *)

Section HandlerFacts.

Variable cosineSimilarity : JsVal -> JsVal -> float.

Abbreviation scoredBy := (scored cosineSimilarity).
Abbreviation rankBy := (rank cosineSimilarity).
Abbreviation handle := (POST cosineSimilarity).

Lemma scoreOf_scored query paper :
  scoreOf (scoredBy query paper)
  = cosineSimilarity query (vector (embedding paper)).
Proof. reflexivity. Qed.

Lemma scored_fields query paper k :
  In k resultFields -> is_Some (stripEmbedding (scoredBy query paper) !! k).
Proof.
  intros Hk. unfold stripEmbedding.
  repeat (destruct Hk as [<-|Hk]; [eexists; reflexivity|]).
  destruct Hk.
Qed.

Lemma rank_from_filtered query filteredPapers K o :
  In o (rankBy query filteredPapers K) ->
  exists paper, In paper filteredPapers /\ o = scoredBy query paper.
Proof.
  unfold rank. intros Ho.
  destruct (mmrDiversification_sub scoreOf embeddingField cosineSimilarity
              (sortBy byScoreDesc (map (scoredBy query) filteredPapers))
              lambda03 K) as (left & P).
  assert (In o (map (scoredBy query) filteredPapers)) as Hin.
  { eapply Permutation_in; [apply sortBy_perm|].
    eapply Permutation_in; [exact P|]. apply in_or_app. left. exact Ho. }
  apply in_map_iff in Hin as (paper & <- & Hp). eauto.
Qed.

(** *** The four ways a request ends *)

Abbreviation validated req :=
  (validateInput (queryEmbedding req) (defaultTopK (topK req)) (req_filter req)).

Lemma POST_invalid req now store s message :
  validated req = Throw message ->
  handle req now store s = (errorResponse message, s).
Proof.
  intros H. unfold POST, search, bind, lift. cbv zeta.
  rewrite H. reflexivity.
Qed.

Lemma POST_load_error req now store s message s' :
  validated req = Ok tt ->
  loadPapers now store s = (Throw message, s') ->
  handle req now store s = (errorResponse message, s').
Proof.
  intros H L. unfold POST, search, bind, lift. cbv zeta.
  rewrite H, L. reflexivity.
Qed.

Lemma POST_empty req now store s papers s' :
  validated req = Ok tt ->
  loadPapers now store s = (Ok papers, s') ->
  applyFilters papers (req_filter req) = [] ->
  handle req now store s
  = (mkResponse 200 None [] (emptyMetadata papers (req_filter req)), s').
Proof.
  intros H L E. unfold POST, search, bind, lift. cbv zeta.
  rewrite H, L, E. reflexivity.
Qed.

Lemma POST_results req now store s papers s' :
  validated req = Ok tt ->
  loadPapers now store s = (Ok papers, s') ->
  applyFilters papers (req_filter req) <> [] ->
  handle req now store s
  = (let filteredPapers := applyFilters papers (req_filter req) in
     let results :=
       map stripEmbedding
           (rankBy (queryEmbedding req) filteredPapers
                 (toNumber (defaultTopK (topK req)))) in
     mkResponse 200 None results
       (fullMetadata papers filteredPapers results (req_filter req)), s').
Proof.
  intros H L E. unfold POST, search, bind, lift. cbv zeta.
  rewrite H, L.
  destruct (applyFilters papers (req_filter req)) as [|p l] eqn:F;
    [congruence|]. reflexivity.
Qed.

(** Every message of the validation includes the word the handler looks
    for; the message of the corpus accessor does not. *)
Lemma validateInput_message q k flt message :
  validateInput q k flt = Throw message ->
  JsString.includes message "Invalid" = true.
Proof.
  unfold validateInput. intros H.
  destruct q as [| | | | |l]; try (inversion H; reflexivity).
  destruct (negb (length l =? 384)%nat); [inversion H; reflexivity|].
  destruct (truthy k && _); [inversion H; reflexivity|].
  destruct flt as [f|]; [|discriminate].
  destruct (f_year f) as [y|]; [|discriminate].
  destruct (yearOutOfRange y); [inversion H; reflexivity|discriminate].
Qed.

Lemma validateInput_unit q k flt u : validateInput q k flt = Ok u -> u = tt.
Proof. destruct u. reflexivity. Qed.

Lemma loadPapers_message now store s message s' :
  loadPapers now store s = (Throw message, s') ->
  message = "Failed to load papers data"%string.
Proof.
  unfold loadPapers. destruct (cacheValid now s); [discriminate|].
  destruct store; try discriminate; intros H; inversion H; reflexivity.
Qed.

End HandlerFacts.

(** ** Outcomes of a request *)

(** Either a request is refused, or the corpus cannot be loaded, or it is
    answered with status 200. *)
Lemma POST_outcome cos req now store s :
  (exists message, fst (POST cos req now store s) = errorResponse message)
  \/ (exists papers s',
        validateInput (queryEmbedding req) (defaultTopK (topK req))
                      (req_filter req) = Ok tt
        /\ loadPapers now store s = (Ok papers, s')
        /\ snd (POST cos req now store s) = s'
        /\ ((applyFilters papers (req_filter req) = []
             /\ fst (POST cos req now store s)
                = mkResponse 200 None []
                    (emptyMetadata papers (req_filter req)))
            \/ (applyFilters papers (req_filter req) <> []
                /\ fst (POST cos req now store s)
                   = (let filteredPapers :=
                        applyFilters papers (req_filter req) in
                      let results :=
                        map stripEmbedding
                            (rank cos (queryEmbedding req) filteredPapers
                                  (toNumber (defaultTopK (topK req)))) in
                      mkResponse 200 None results
                        (fullMetadata papers filteredPapers results
                           (req_filter req)))))).
Proof.
  destruct (validateInput (queryEmbedding req) (defaultTopK (topK req))
              (req_filter req)) as [u|message] eqn:V.
  - destruct u.
    destruct (loadPapers now store s) as [[papers|message] s'] eqn:L.
    + right. exists papers, s'. split; [reflexivity|]. split; [reflexivity|].
      assert (applyFilters papers (req_filter req) = []
              \/ applyFilters papers (req_filter req) <> []) as [F|N]
        by (destruct (applyFilters papers (req_filter req));
            [left; reflexivity|right; discriminate]).
      * rewrite (POST_empty cos req now store s papers s' V L F).
        split; [reflexivity|]. left. auto.
      * rewrite (POST_results cos req now store s papers s' V L N).
        split; [reflexivity|]. right. auto.
    + left. exists message.
      rewrite (POST_load_error cos req now store s message s' V L).
      reflexivity.
  - left. exists message.
    rewrite (POST_invalid cos req now store s message V). reflexivity.
Qed.

Lemma errorResponse_status message : status (errorResponse message) <> 200.
Proof.
  unfold errorResponse. simpl.
  destruct (JsString.includes message "Invalid"); discriminate.
Qed.

(** C10 as stated fails for a request that is answered with an error: the
    filter object below asks for years from 1900 on, the request is refused
    with status 400, and the metadata of the response has no
    [filter_applied] entry. *)
Lemma C10_error_response_has_no_flag :
  ~ (forall cos req f now store s,
        req_filter req = Some f ->
        metadata (fst (POST cos req now store s)) !! "filter_applied"
        = Some (JBool true)).
Proof.
  intros H.
  specialize (H cosineSimilaritySpec
                (Sample.request JUndef
                   (Some (Sample.yearsOnly (Some 1900%float) None)))
                _ 1000 (Corpus Sample.corpus) initialServer eq_refl).
  vm_compute in H. discriminate.
Qed.

(** C10, amended: on a successful response [filter_applied] is [true] when
    the request carries a filter object, whatever the object holds, and
    [false] when it carries none; and the empty filter object leaves the
    corpus as it is. *)
Theorem C10_filter_applied_reports_presence cos req now store s :
  status (fst (POST cos req now store s)) = 200 ->
  (forall f, req_filter req = Some f ->
             metadata (fst (POST cos req now store s)) !! "filter_applied"
             = Some (JBool true))
  /\ (req_filter req = None ->
      metadata (fst (POST cos req now store s)) !! "filter_applied"
      = Some (JBool false))
  /\ forall papers, applyFilters papers (Some Sample.emptyFilter) = papers.
Proof.
  intros Hs.
  assert (F : metadata (fst (POST cos req now store s)) !! "filter_applied"
              = Some (JBool (present (req_filter req)))).
  { destruct (POST_outcome cos req now store s)
      as [(message & E)|(papers & s' & _ & _ & _ & [(_ & E)|(_ & E)])];
      rewrite E in *.
    - exfalso. exact (errorResponse_status message Hs).
    - reflexivity.
    - reflexivity. }
  split; [|split; [|reflexivity]].
  - intros f Hf. rewrite F, Hf. reflexivity.
  - intros Hf. rewrite F, Hf. reflexivity.
Qed.

Lemma C10_filter_applied_reports_presence_witness :
  metadata
    (fst (POST cosineSimilaritySpec
            (Sample.request JUndef (Some Sample.emptyFilter)) 1000
            (Corpus Sample.corpus) initialServer))
    !! "filter_applied" = Some (JBool true)
  /\ metadata
       (fst (POST cosineSimilaritySpec (Sample.request JUndef None) 1000
               (Corpus Sample.corpus) initialServer))
       !! "filter_applied" = Some (JBool false)
  /\ forall papers, applyFilters papers (Some Sample.emptyFilter) = papers.
Proof.
  destruct (C10_filter_applied_reports_presence cosineSimilaritySpec
              (Sample.request JUndef (Some Sample.emptyFilter))
              1000 (Corpus Sample.corpus) initialServer
              ltac:(vm_compute; reflexivity)) as (T & _ & E).
  destruct (C10_filter_applied_reports_presence cosineSimilaritySpec
              (Sample.request JUndef None)
              1000 (Corpus Sample.corpus) initialServer
              ltac:(vm_compute; reflexivity)) as (_ & F & _).
  split; [exact (T Sample.emptyFilter eq_refl)|].
  split; [exact (F eq_refl)|exact E].
Defined.

(** C7: a valid request whose filter matches no record of the corpus is
    answered with status 200, no error, an empty result list, and metadata
    whose [filtered_chunks] is [0]. *)
Theorem C7_empty_result_is_success cos req now store s papers s' :
  validateInput (queryEmbedding req) (defaultTopK (topK req))
                (req_filter req) = Ok tt ->
  loadPapers now store s = (Ok papers, s') ->
  applyFilters papers (req_filter req) = [] ->
  let response := fst (POST cos req now store s) in
  status response = 200
  /\ error response = None
  /\ results response = []
  /\ metadata response !! "filtered_chunks" = Some (JNum PrimFloat.zero).
Proof.
  intros V L F. cbv zeta.
  rewrite (POST_empty cos req now store s papers s' V L F).
  repeat split.
Qed.

Lemma C7_empty_result_is_success_witness :
  let response :=
    fst (POST cosineSimilaritySpec
           (Sample.request JUndef
              (Some (Sample.yearsOnly (Some 2020%float) (Some 2021%float))))
           1000 (Corpus [Sample.pa; Sample.pc]) initialServer) in
  status response = 200
  /\ error response = None
  /\ results response = []
  /\ metadata response !! "filtered_chunks" = Some (JNum PrimFloat.zero).
Proof.
  apply (C7_empty_result_is_success cosineSimilaritySpec
           (Sample.request JUndef
              (Some (Sample.yearsOnly (Some 2020%float) (Some 2021%float))))
           1000 (Corpus [Sample.pa; Sample.pc]) initialServer
           [Sample.pa; Sample.pc]
           (mkServer (Some [Sample.pa; Sample.pc]) (Some 1000) 1)).
  - vm_compute. reflexivity.
  - vm_compute. reflexivity.
  - vm_compute. reflexivity.
Defined.

(** C2 as the specification states it fails: on an empty filtered set the
    response is successful and its metadata has no [returned_chunks]. *)
Lemma C2_empty_set_lacks_fields :
  ~ (forall cos req now store s,
        status (fst (POST cos req now store s)) = 200 ->
        Forall (fun k => is_Some (metadata (fst (POST cos req now store s)) !! k))
               ["total_chunks"; "filtered_chunks"; "returned_chunks";
                "filter_applied"; "mmr_diversification"]%string).
Proof.
  intros H.
  specialize (H cosineSimilaritySpec (Sample.request JUndef None) 1000
                (Corpus []) initialServer eq_refl).
  apply Forall_cons_iff in H as [_ H].
  apply Forall_cons_iff in H as [_ H].
  apply Forall_cons_iff in H as [[v Hv] _].
  vm_compute in Hv. discriminate.
Qed.

(** C2, amended: every successful response reports [total_chunks],
    [filtered_chunks] and [filter_applied] (the presence of a filter).  When
    the filtered set is not empty it also reports [returned_chunks], the
    number of results, and [mmr_diversification], which is always [true];
    when the filtered set is empty these two fields are absent. *)
Theorem C2_metadata_of_success cos req now store s papers s' :
  validateInput (queryEmbedding req) (defaultTopK (topK req))
                (req_filter req) = Ok tt ->
  loadPapers now store s = (Ok papers, s') ->
  let response := fst (POST cos req now store s) in
  let filteredPapers := applyFilters papers (req_filter req) in
  status response = 200
  /\ metadata response !! "total_chunks" = Some (count (length papers))
  /\ metadata response !! "filtered_chunks"
     = Some (count (length filteredPapers))
  /\ metadata response !! "filter_applied"
     = Some (JBool (present (req_filter req)))
  /\ (filteredPapers <> [] ->
      metadata response !! "returned_chunks"
      = Some (count (length (results response)))
      /\ metadata response !! "mmr_diversification" = Some (JBool true))
  /\ (filteredPapers = [] ->
      metadata response !! "returned_chunks" = None
      /\ metadata response !! "mmr_diversification" = None).
Proof.
  intros V L. cbv zeta.
  assert (applyFilters papers (req_filter req) = []
          \/ applyFilters papers (req_filter req) <> []) as [F|N]
    by (destruct (applyFilters papers (req_filter req));
        [left; reflexivity|right; discriminate]).
  - rewrite (POST_empty cos req now store s papers s' V L F), F.
    repeat split; try reflexivity. all: congruence.
  - rewrite (POST_results cos req now store s papers s' V L N).
    repeat split; try reflexivity. all: congruence.
Qed.

Lemma C2_metadata_of_success_witness :
  let response :=
    fst (POST cosineSimilaritySpec (Sample.request JUndef None) 1000
           (Corpus Sample.corpus) initialServer) in
  status response = 200
  /\ metadata response !! "total_chunks" = Some (count 3)
  /\ metadata response !! "filtered_chunks" = Some (count 3)
  /\ metadata response !! "filter_applied" = Some (JBool false)
  /\ (Sample.corpus <> [] ->
      metadata response !! "returned_chunks"
      = Some (count (length (results response)))
      /\ metadata response !! "mmr_diversification" = Some (JBool true))
  /\ (Sample.corpus = [] ->
      metadata response !! "returned_chunks" = None
      /\ metadata response !! "mmr_diversification" = None).
Proof.
  apply (C2_metadata_of_success cosineSimilaritySpec
           (Sample.request JUndef None) 1000 (Corpus Sample.corpus)
           initialServer Sample.corpus
           (mkServer (Some Sample.corpus) (Some 1000) 1)).
  - vm_compute. reflexivity.
  - vm_compute. reflexivity.
Defined.

(** C6 as the specification states it fails: an array of 384 strings is not
    an array of 384 numbers, and the request is not refused. *)
Lemma C6_elements_are_not_checked :
  ~ (forall cos req now store s,
        isNumberVector384 (queryEmbedding req) = false ->
        status (fst (POST cos req now store s)) = 400
        /\ results (fst (POST cos req now store s)) = []).
Proof.
  intros H.
  destruct (H cosineSimilaritySpec
              (mkRequest (JArr (repeat (JStr "x") 384)) JUndef None)
              1000 (Corpus []) initialServer eq_refl) as [Hs _].
  vm_compute in Hs. discriminate.
Qed.

(** C6, amended: a request whose query embedding is not an array of length
    exactly 384 is refused: status 400, an error message, an empty result
    list, and the server state untouched.  A failure of the corpus accessor
    is answered with status 500 and an empty result list. *)
Theorem C6_bad_embedding_is_400 cos req now store s :
  (forall l, queryEmbedding req = JArr l -> length l <> 384%nat) ->
  let response := fst (POST cos req now store s) in
  status response = 400
  /\ is_Some (error response)
  /\ results response = []
  /\ snd (POST cos req now store s) = s
  /\ forall req' now' store' s0 message s1,
       validateInput (queryEmbedding req') (defaultTopK (topK req'))
                     (req_filter req') = Ok tt ->
       loadPapers now' store' s0 = (Throw message, s1) ->
       status (fst (POST cos req' now' store' s0)) = 500
       /\ results (fst (POST cos req' now' store' s0)) = [].
Proof.
  intros Hq. cbv zeta.
  assert (exists message,
             validateInput (queryEmbedding req) (defaultTopK (topK req))
                           (req_filter req) = Throw message) as [message V].
  { unfold validateInput. destruct (queryEmbedding req) as [| | | | |l] eqn:Q;
      eauto.
    destruct (Nat.eqb_spec (length l) 384) as [E|E];
      [destruct (Hq l eq_refl E)|]. simpl. eauto. }
  rewrite (POST_invalid cos req now store s message V).
  pose proof (validateInput_message _ _ _ _ V) as I.
  unfold errorResponse. cbn [fst snd status error results]. rewrite I.
  repeat split; eauto.
  - rewrite (POST_load_error cos req' now' store' s0 message0 s1 H H0).
    rewrite (loadPapers_message _ _ _ _ _ H0). reflexivity.
  - rewrite (POST_load_error cos req' now' store' s0 message0 s1 H H0).
    reflexivity.
Qed.

Lemma C6_bad_embedding_is_400_witness :
  let req := mkRequest (vector (repeat PrimFloat.one 300)) JUndef None in
  let response :=
    fst (POST cosineSimilaritySpec req 1000 (Corpus Sample.corpus)
           initialServer) in
  status response = 400
  /\ is_Some (error response)
  /\ results response = []
  /\ snd (POST cosineSimilaritySpec req 1000 (Corpus Sample.corpus)
            initialServer) = initialServer
  /\ forall req' now' store' s0 message s1,
       validateInput (queryEmbedding req') (defaultTopK (topK req'))
                     (req_filter req') = Ok tt ->
       loadPapers now' store' s0 = (Throw message, s1) ->
       status (fst (POST cosineSimilaritySpec req' now' store' s0)) = 500
       /\ results (fst (POST cosineSimilaritySpec req' now' store' s0)) = [].
Proof.
  apply (C6_bad_embedding_is_400 cosineSimilaritySpec
           (mkRequest (vector (repeat PrimFloat.one 300)) JUndef None)
           1000 (Corpus Sample.corpus) initialServer).
  intros l E. inversion E. subst l. vm_compute. discriminate.
Defined.

(** C3 as the specification states it fails: [topK = 2.5] is not an integer
    and the request is answered. *)
Lemma C3_fraction_is_accepted :
  ~ (forall cos req now store s,
        topK req <> JUndef ->
        isInteger1to10 (topK req) = false ->
        status (fst (POST cos req now store s)) = 400).
Proof.
  intros H.
  assert (status (fst (POST cosineSimilaritySpec
                         (Sample.request (JNum 2.5%float) None) 1000
                         (Corpus Sample.corpus) initialServer)) = 400) as Hs.
  { apply H; [discriminate|reflexivity]. }
  vm_compute in Hs. discriminate.
Qed.

(** C3, amended: on a request with a well-formed query embedding, a [topK]
    that is given and truthy (anything but [0], [NaN], [null], [false] and
    the empty string) passes the validation exactly when it is a number
    between 1 and 10, integer or not; otherwise the request is refused with
    status 400 and the message of the [topK] check, and neither the cache
    nor the corpus file is touched. *)
Theorem C3_topK_range cos req l now store s :
  queryEmbedding req = JArr l -> length l = 384%nat ->
  topK req <> JUndef -> truthy (topK req) = true ->
  (isNumber1to10 (topK req) = true ->
   validateInput (queryEmbedding req) (topK req) None = Ok tt)
  /\ (isNumber1to10 (topK req) = false ->
      POST cos req now store s
      = (errorResponse "Invalid topK: must be a number between 1 and 10", s)
      /\ status (fst (POST cos req now store s)) = 400).
Proof.
  intros Q L U T.
  assert (D : defaultTopK (topK req) = topK req)
    by (destruct (topK req); congruence || reflexivity).
  assert (R : (negb (isNumber (topK req))
               || JsNum.lt (toNumber (topK req)) PrimFloat.one
               || JsNum.lt num10 (toNumber (topK req)))
              = negb (isNumber1to10 (topK req))).
  { destruct (topK req) as [| |b|x|t|a]; try reflexivity.
    cbn [isNumber toNumber isNumber1to10 negb orb truthy] in *.
    unfold JsNum.truthy in T. apply andb_prop in T as [_ N].
    apply negb_true_iff in N.
    assert (N1 : JsNum.isNaN PrimFloat.one = false) by reflexivity.
    assert (N10 : JsNum.isNaN num10 = false) by reflexivity.
    destruct (JsNum.lt x PrimFloat.one) eqn:A.
    - rewrite (JsNumFacts.lt_le_false x PrimFloat.one x A
                 (JsNumFacts.lt_irrefl x)). reflexivity.
    - rewrite (JsNumFacts.le_total _ _ N N1 A). cbn [orb andb].
      destruct (JsNum.lt num10 x) eqn:B.
      + rewrite (JsNumFacts.lt_le_false num10 x num10 B
                   (JsNumFacts.lt_irrefl num10)). reflexivity.
      + rewrite (JsNumFacts.le_total _ _ N10 N B). reflexivity. }
  split; intros I.
  - unfold validateInput. rewrite Q, L, T, R, I. reflexivity.
  - assert (V : validateInput (queryEmbedding req) (defaultTopK (topK req))
                              (req_filter req)
                = Throw "Invalid topK: must be a number between 1 and 10").
    { unfold validateInput. rewrite D, Q, L, T, R, I. reflexivity. }
    rewrite (POST_invalid cos req now store s _ V). split; reflexivity.
Qed.

Lemma C3_topK_range_witness :
  let req := Sample.request (JNum 15%float) None in
  (isNumber1to10 (topK req) = true ->
   validateInput (queryEmbedding req) (topK req) None = Ok tt)
  /\ (isNumber1to10 (topK req) = false ->
      POST cosineSimilaritySpec req 1000 (Corpus Sample.corpus) initialServer
      = (errorResponse "Invalid topK: must be a number between 1 and 10",
         initialServer)
      /\ status (fst (POST cosineSimilaritySpec req 1000 (Corpus Sample.corpus)
                        initialServer)) = 400).
Proof.
  apply (C3_topK_range cosineSimilaritySpec
           (Sample.request (JNum 15%float) None)
           (map JNum (Sample.vec 1 0)) 1000 (Corpus Sample.corpus)
           initialServer).
  - reflexivity.
  - vm_compute. reflexivity.
  - discriminate.
  - vm_compute. reflexivity.
Defined.

(** C8 fails on a corpus file that holds [null].  The server has a cached
    corpus stamped 1000 and the clock reads 400000, so a reload is
    attempted.  The call throws the load error, but the cache is already
    replaced by [null] and the time stamp by the clock reading; when reading
    or parsing the file throws, the same call leaves both as they were. *)
Theorem C8_null_file_overwrites_cache :
  loadPapers 400000 ParsesToNull Sample.warm
  = (Throw "Failed to load papers data", mkServer None (Some 400000) 2)
  /\ loadPapers 400000 Unreadable Sample.warm
     = (Throw "Failed to load papers data",
        mkServer (Some Sample.corpus) (Some 1000) 2).
Proof. split; reflexivity. Qed.

(** A cached collection younger than five minutes is returned as it is,
    whatever the corpus file holds, with the state (and the count of reads)
    unchanged.  When a reload is attempted and reading or parsing the file
    throws, the call throws the load error, leaves the cached collection
    and its time stamp as they were, returns no cached data, and the
    handler answers with that error.  (A time stamp is the clock reading of
    a load; the reading [0] is not a time stamp for the code.) *)
Theorem fresh_cache_and_unreadable_file now store s :
  (forall cached ts,
      papersCache s = Some cached -> cacheTimestamp s = Some ts ->
      ts <> 0 -> now - ts < 5 * 60 * 1000 ->
      loadPapers now store s = (Ok cached, s))
  /\ (cacheValid now s = None -> store = Unreadable ->
      exists s',
        loadPapers now store s = (Throw "Failed to load papers data", s')
        /\ papersCache s' = papersCache s
        /\ cacheTimestamp s' = cacheTimestamp s
        /\ storageReads s' = S (storageReads s)
        /\ forall cos req,
             validateInput (queryEmbedding req) (defaultTopK (topK req))
                           (req_filter req) = Ok tt ->
             POST cos req now store s
             = (errorResponse "Failed to load papers data", s')).
Proof.
  split.
  - intros cached ts Hc Ht Hz Hage. unfold loadPapers, cacheValid.
    rewrite Hc, Ht.
    destruct (Z.eqb_spec ts 0) as [E|_]; [contradiction|].
    unfold CACHE_DURATION.
    destruct (Z.ltb_spec (now - ts) (5 * 60 * 1000)) as [_|G]; [|lia].
    reflexivity.
  - intros Hv ->.
    exists (mkServer (papersCache s) (cacheTimestamp s) (S (storageReads s))).
    assert (L : loadPapers now Unreadable s
                = (Throw "Failed to load papers data",
                   mkServer (papersCache s) (cacheTimestamp s)
                            (S (storageReads s))))
      by (unfold loadPapers; rewrite Hv; reflexivity).
    repeat split; try exact L.
    intros cos req V. apply (POST_load_error cos req now Unreadable s _ _ V L).
Qed.

Lemma fresh_cache_and_unreadable_file_witness :
  loadPapers 200000 Unreadable Sample.warm = (Ok Sample.corpus, Sample.warm)
  /\ exists s',
       loadPapers 400000 Unreadable Sample.warm
       = (Throw "Failed to load papers data", s')
       /\ papersCache s' = Some Sample.corpus
       /\ cacheTimestamp s' = Some 1000.
Proof.
  split.
  - apply (proj1 (fresh_cache_and_unreadable_file 200000 Unreadable
                    Sample.warm)
             Sample.corpus 1000); (reflexivity || lia).
  - destruct (proj2 (fresh_cache_and_unreadable_file 400000 Unreadable
                       Sample.warm)
                eq_refl eq_refl) as (s' & L & C & T & _).
    exists s'. auto.
Defined.

(** C9: stripping removes the [embedding] field and no other; each of
    [doc_id], [doc_title], [year], [url], [chunk_id], [text] and [score] is
    kept with its value, and every result record of a response has these
    seven fields and no [embedding]. *)
Theorem C9_strip_keeps_result_fields :
  (forall o k, k <> "embedding"%string -> stripEmbedding o !! k = o !! k)
  /\ (forall o k, In k resultFields -> stripEmbedding o !! k = o !! k)
  /\ (forall o, stripEmbedding o !! "embedding" = None)
  /\ (forall cos req now store s r,
        In r (results (fst (POST cos req now store s))) ->
        r !! "embedding" = None
        /\ forall k, In k resultFields -> is_Some (r !! k)).
Proof.
  split; [|split; [|split]].
  - intros o k Hk. unfold stripEmbedding. apply lookup_delete_ne. congruence.
  - intros o k Hk. unfold stripEmbedding. apply lookup_delete_ne.
    intros <-. vm_compute in Hk. intuition discriminate.
  - intros o. apply lookup_delete_eq.
  - intros cos req now store s r Hr.
    destruct (POST_outcome cos req now store s)
      as [(message & E)|(papers & s' & _ & _ & _ & [(_ & E)|(_ & E)])];
      rewrite E in Hr; try (simpl in Hr; contradiction).
    cbn [results] in Hr. apply in_map_iff in Hr as (o & <- & Ho).
    apply rank_from_filtered in Ho as (paper & _ & ->).
    split; [apply lookup_delete_eq|].
    intros k Hk. apply scored_fields. exact Hk.
Qed.

(** ** Ranking a filtered set *)

Lemma scores_not_NaN cos query papers :
  (forall p, In p papers ->
             JsNum.isNaN (cos query (vector (embedding p))) = false) ->
  Forall (fun o => JsNum.isNaN (scoreOf o) = false)
         (map (scored cos query) papers).
Proof.
  intros H. apply List.Forall_forall. intros o Ho.
  apply in_map_iff in Ho as (p & <- & Hp).
  rewrite scoreOf_scored. apply H. exact Hp.
Qed.

Lemma sorted_candidates cos query papers :
  (forall p, In p papers ->
             JsNum.isNaN (cos query (vector (embedding p))) = false) ->
  StronglySorted (descendingBy scoreOf)
    (sortBy byScoreDesc (map (scored cos query) papers)).
Proof.
  intros H. apply sortBy_sorted; [reflexivity|].
  apply scores_not_NaN. exact H.
Qed.

(** C5: for a bound [k] in 1..10 the ranker returns [min k n] candidates of
    a filtered set of [n] papers; when [n <= k] the output is the scored
    candidates sorted by descending score (by the stable sort, hence a
    permutation of them), untouched by the diversification.  Scores are
    numbers: the scorer returns no [NaN] on these papers. *)
Theorem C5_rank_length_and_small_sets cos query papers k :
  (1 <= k <= 10)%nat ->
  (forall p, In p papers ->
             JsNum.isNaN (cos query (vector (embedding p))) = false) ->
  let out := rank cos query papers (JsNum.ofNat k) in
  length out = Nat.min k (length papers)
  /\ ((length papers <= k)%nat ->
      out = sortBy byScoreDesc (map (scored cos query) papers)
      /\ Permutation out (map (scored cos query) papers)
      /\ StronglySorted (descendingBy scoreOf) out).
Proof.
  intros Hk Hn. cbv zeta. unfold rank. split.
  - rewrite mmrDiversification_length by assumption.
    rewrite sortBy_length, length_map. reflexivity.
  - intros Hle.
    rewrite mmrDiversification_small.
    + split; [reflexivity|]. split; [apply sortBy_perm|].
      apply sorted_candidates. exact Hn.
    + rewrite LenFacts.lenLe_ofNat by lia.
      rewrite sortBy_length, length_map. apply Nat.leb_le. exact Hle.
Qed.

Lemma C5_rank_length_and_small_sets_witness :
  let out :=
    rank cosineSimilaritySpec Sample.query Sample.corpus (JsNum.ofNat 5) in
  length out = Nat.min 5 (length Sample.corpus)
  /\ ((length Sample.corpus <= 5)%nat ->
      out = sortBy byScoreDesc
              (map (scored cosineSimilaritySpec Sample.query) Sample.corpus)
      /\ Permutation out
           (map (scored cosineSimilaritySpec Sample.query) Sample.corpus)
      /\ StronglySorted (descendingBy scoreOf) out).
Proof.
  apply (C5_rank_length_and_small_sets cosineSimilaritySpec Sample.query
           Sample.corpus 5).
  - lia.
  - intros p [<-|[<-|[<-|[]]]]; vm_compute; reflexivity.
Defined.

(** ** Greedy runs *)

Section GreedyFacts.

Context {A : Type}.
Variable sc : list A -> A -> float.
Variable K : float.

Lemma GreedyRun_extends selected remaining out :
  GreedyRun sc K selected remaining out -> exists t, out = selected ++ t.
Proof.
  induction 1 as [selected remaining _|selected remaining b x out _ _ _ IH].
  - exists []. rewrite app_nil_r. reflexivity.
  - destruct IH as (t & ->). exists (x :: t).
    rewrite <- app_assoc. reflexivity.
Qed.

(** The second element of a run is beaten by no remaining candidate. *)
Lemma GreedyRun_second a remaining x t c :
  GreedyRun sc K [a] remaining (a :: x :: t) ->
  In c remaining -> JsNum.lt (sc [a] x) (sc [a] c) = false.
Proof.
  intros H Hc. inversion H as [|? ? b y ? _ F G]; subst.
  apply GreedyRun_extends in G as (t' & E). simpl in E.
  inversion E; subst y.
  destruct F as (_ & F & _).
  apply In_nth_error in Hc as (j & Hj). exact (F j c Hj).
Qed.

End GreedyFacts.

(** C1 fails on the code: the running maximum of the similarities starts
    at [0], so a candidate that points away from every selected one is
    penalised as if its similarity were [0].  With the sample corpus and a
    bound of two, the run of the score the specification gives would
    select [ob] second; the code selects [oc]. *)
Lemma C1_similarity_is_floored_at_zero :
  ~ (forall cos query papers K,
        papers <> [] ->
        JsNum.lenLe (length papers) K = false ->
        exists r rest,
          sortBy byScoreDesc (map (scored cos query) papers) = r :: rest
          /\ GreedyRun (pairwiseMmrScore scoreOf embeddingField cos lambda03)
                       K [r] rest (rank cos query papers K)).
Proof.
  intros H.
  destruct (H cosineSimilaritySpec Sample.query Sample.corpus 2%float)
    as (r & rest & S & G); [discriminate|reflexivity|].
  assert (S' : sortBy byScoreDesc
                 (map (scored cosineSimilaritySpec Sample.query) Sample.corpus)
               = [Sample.oa; Sample.oc; Sample.ob])
    by (vm_compute; reflexivity).
  rewrite S' in S. inversion S; subst r rest. clear S.
  assert (R : rank cosineSimilaritySpec Sample.query Sample.corpus 2%float
              = [Sample.oa; Sample.oc]) by (vm_compute; reflexivity).
  rewrite R in G.
  pose proof (GreedyRun_second _ _ _ _ _ _ Sample.ob G
                ltac:(right; left; reflexivity)) as F.
  vm_compute in F. discriminate.
Qed.

(** C1 at the sample corpus, query [(1, 0, ...)], bound two: the sorted
    candidates are [oa; oc; ob] and the code returns [oa; oc].  The
    similarity of [ob] to the selected [oa] is negative, the code's running
    maximum for it is [0]; by the score of the specification [ob] beats
    [oc], by the score the code computes [oc] beats [ob]. *)
Theorem C1_floor_changes_selection :
  sortBy byScoreDesc
    (map (scored cosineSimilaritySpec Sample.query) Sample.corpus)
  = [Sample.oa; Sample.oc; Sample.ob]
  /\ rank cosineSimilaritySpec Sample.query Sample.corpus 2%float
     = [Sample.oa; Sample.oc]
  /\ JsNum.lt (cosineSimilaritySpec (embeddingField Sample.ob)
                                    (embeddingField Sample.oa))
              PrimFloat.zero = true
  /\ maxSimilarity embeddingField cosineSimilaritySpec [Sample.oa] Sample.ob
     = PrimFloat.zero
  /\ JsNum.lt
       (pairwiseMmrScore scoreOf embeddingField cosineSimilaritySpec lambda03
                         [Sample.oa] Sample.oc)
       (pairwiseMmrScore scoreOf embeddingField cosineSimilaritySpec lambda03
                         [Sample.oa] Sample.ob) = true
  /\ JsNum.lt
       (mmrScore scoreOf embeddingField cosineSimilaritySpec lambda03
                 [Sample.oa] Sample.ob)
       (mmrScore scoreOf embeddingField cosineSimilaritySpec lambda03
                 [Sample.oa] Sample.oc) = true.
Proof. repeat split; vm_compute; reflexivity. Qed.

(** The ranker as the code computes it: on a non-empty filtered set larger
    than the bound, with scores that are numbers, the output starts with
    the head of the candidates sorted by descending score, and no candidate
    scores higher than it; the output is a greedy run from that head: while
    fewer than [K] are selected, the first candidate maximising
    [lambda * score - (1 - lambda) * maxSimilarity] is moved to the selected
    ones, where [maxSimilarity] is the code's running maximum, started at
    [0], of the similarities to the selected candidates. *)
Theorem rank_is_a_greedy_run cos query papers K :
  papers <> [] ->
  JsNum.lenLe (length papers) K = false ->
  (forall p, In p papers ->
             JsNum.isNaN (cos query (vector (embedding p))) = false) ->
  exists r rest,
    sortBy byScoreDesc (map (scored cos query) papers) = r :: rest
    /\ hd_error (rank cos query papers K) = Some r
    /\ (forall p, In p papers ->
                  JsNum.le (scoreOf (scored cos query p)) (scoreOf r) = true)
    /\ GreedyRun (mmrScore scoreOf embeddingField cos lambda03) K [r] rest
                 (rank cos query papers K).
Proof.
  intros Hne Hbig Hn. unfold rank.
  pose proof (sorted_candidates cos query papers Hn) as Hs.
  pose proof (sortBy_perm byScoreDesc (map (scored cos query) papers)) as Hp.
  pose proof (scores_not_NaN cos query papers Hn) as Hnan.
  assert (Hl : length (sortBy byScoreDesc (map (scored cos query) papers))
               = length papers)
    by (rewrite sortBy_length, length_map; reflexivity).
  destruct (sortBy byScoreDesc (map (scored cos query) papers))
    as [|r rest] eqn:E.
  - destruct papers; [congruence|discriminate].
  - exists r, rest. split; [reflexivity|].
    split; [apply mmrDiversification_head|]. split.
    + intros p Hin.
      assert (In (scored cos query p) (r :: rest)) as [Er|Hr].
      { eapply Permutation_in; [symmetry; exact Hp|].
        apply in_map. exact Hin. }
      * rewrite Er. apply JsNumFacts.le_refl. rewrite scoreOf_scored. auto.
      * inversion Hs as [|? ? _ Hall]; subst.
        rewrite List.Forall_forall in Hall. apply (Hall _ Hr).
    + destruct (mmrDiversification_greedy scoreOf embeddingField cos
                  (r :: rest) lambda03 K) as (r' & rest' & E' & G).
      * rewrite Hl. exact Hbig.
      * discriminate.
      * inversion E'; subst r' rest'. exact G.
Qed.

Lemma rank_is_a_greedy_run_witness :
  exists r rest,
    sortBy byScoreDesc
      (map (scored cosineSimilaritySpec Sample.query) Sample.corpus)
    = r :: rest
    /\ hd_error (rank cosineSimilaritySpec Sample.query Sample.corpus 2%float)
       = Some r
    /\ (forall p, In p Sample.corpus ->
                  JsNum.le (scoreOf (scored cosineSimilaritySpec Sample.query p))
                           (scoreOf r) = true)
    /\ GreedyRun
         (mmrScore scoreOf embeddingField cosineSimilaritySpec lambda03)
         2%float [r] rest
         (rank cosineSimilaritySpec Sample.query Sample.corpus 2%float).
Proof.
  apply (rank_is_a_greedy_run cosineSimilaritySpec Sample.query Sample.corpus
           2%float).
  - discriminate.
  - reflexivity.
  - intros p [<-|[<-|[<-|[]]]]; vm_compute; reflexivity.
Defined.

(** * Further properties of the route *)

(** ** The filter engine as a predicate *)

Module FilterAlgebra.

Lemma filter_filter {A : Type} (f g : A -> bool) (l : list A) :
  List.filter g (List.filter f l) = List.filter (fun x => f x && g x) l.
Proof.
  induction l as [|x l IH]; simpl; [reflexivity|].
  destruct (f x); simpl; [destruct (g x)|]; rewrite IH; reflexivity.
Qed.

Lemma filter_true {A : Type} (l : list A) :
  List.filter (fun _ => true) l = l.
Proof. induction l as [|x l IH]; simpl; [|rewrite IH]; reflexivity. Qed.

Lemma filter_pointwise {A : Type} (f g : A -> bool) (l : list A) :
  (forall x, f x = g x) -> List.filter f l = List.filter g l.
Proof. intros H. apply List.filter_ext. exact H. Qed.

Lemma applyYear_filter y papers :
  applyYear y papers = List.filter (passesYear y) papers.
Proof.
  unfold applyYear, passesYear.
  destruct (year_min y) as [lo|], (year_max y) as [hi|];
    rewrite ?filter_filter; try reflexivity.
  - apply filter_pointwise. intros p. rewrite andb_true_r. reflexivity.
  - symmetry. apply filter_true.
Qed.

Lemma applyKeywords_filter k papers :
  applyKeywords k papers = List.filter (passesKeywords k) papers.
Proof.
  unfold applyKeywords, passesKeywords.
  destruct (kw_include k) as [inc|], (kw_exclude k) as [exc|];
    try destruct (nonEmpty inc); try destruct (nonEmpty exc);
    rewrite ?filter_filter; try reflexivity;
    try (symmetry; apply filter_true);
    apply filter_pointwise; intros p; rewrite ?andb_true_r; reflexivity.
Qed.

Lemma applyDocIds_filter ids papers :
  applyDocIds ids papers = List.filter (passesDocIds ids) papers.
Proof.
  unfold applyDocIds, passesDocIds. destruct (nonEmpty ids);
    [reflexivity|symmetry; apply filter_true].
Qed.

Lemma applyFilters_passes papers flt :
  applyFilters papers flt = List.filter (passes flt) papers.
Proof.
  destruct flt as [f|]; [|symmetry; apply filter_true].
  unfold applyFilters, passes. cbv zeta.
  assert (E3 : forall l,
             match f_doc_ids f with
             | Some ids => applyDocIds ids l
             | None => l
             end
             = List.filter
                 (fun p => match f_doc_ids f with
                           | Some ids => passesDocIds ids p
                           | None => true
                           end) l).
  { intros l. destruct (f_doc_ids f);
      [apply applyDocIds_filter|symmetry; apply filter_true]. }
  assert (E2 : forall l,
             match f_keywords f with
             | Some k => applyKeywords k l
             | None => l
             end
             = List.filter
                 (fun p => match f_keywords f with
                           | Some k => passesKeywords k p
                           | None => true
                           end) l).
  { intros l. destruct (f_keywords f);
      [apply applyKeywords_filter|symmetry; apply filter_true]. }
  assert (E1 : match f_year f with
               | Some y => applyYear y papers
               | None => papers
               end
               = List.filter
                   (fun p => match f_year f with
                             | Some y => passesYear y p
                             | None => true
                             end) papers).
  { destruct (f_year f);
      [apply applyYear_filter|symmetry; apply filter_true]. }
  rewrite E3, E2, E1, !filter_filter.
  apply filter_pointwise. intros p. apply andb_assoc.
Qed.

End FilterAlgebra.

(** The successive filters of [applyFilters] amount to one test per paper:
    the output is the papers, in corpus order, that pass every sub-filter
    present. *)
Theorem applyFilters_is_one_predicate papers flt :
  applyFilters papers flt = List.filter (passes flt) papers
  /\ forall p, In p (applyFilters papers flt)
               <-> In p papers /\ passes flt p = true.
Proof.
  split; [apply FilterAlgebra.applyFilters_passes|].
  intros p. rewrite FilterAlgebra.applyFilters_passes. apply filter_In.
Qed.

(** Two filters applied one after the other give the same papers in either
    order, and applying a filter a second time changes nothing. *)
Theorem applyFilters_commute_idempotent papers f g :
  applyFilters (applyFilters papers f) g
  = applyFilters (applyFilters papers g) f
  /\ applyFilters (applyFilters papers f) f = applyFilters papers f.
Proof.
  rewrite !FilterAlgebra.applyFilters_passes, !FilterAlgebra.filter_filter.
  split; apply FilterAlgebra.filter_pointwise; intros p.
  - apply andb_comm.
  - destruct (passes f p); reflexivity.
Qed.

(** A year block whose [min] exceeds its [max] is not an error for the
    filter engine: it keeps no paper. *)
Theorem inverted_year_range_keeps_nothing papers f lo hi :
  f_year f = Some (mkYearRange (Some lo) (Some hi)) ->
  JsNum.lt hi lo = true ->
  applyFilters papers (Some f) = [].
Proof.
  intros Hy Hlt. rewrite FilterAlgebra.applyFilters_passes.
  induction papers as [|p l IH]; simpl; [reflexivity|].
  rewrite IH. rewrite Hy. unfold passesYear. simpl.
  unfold yearAtLeast, yearAtMost.
  destruct (year p) as [y|]; [|reflexivity].
  destruct (JsNum.truthy y); [|reflexivity]. simpl.
  destruct (JsNum.le lo y) eqn:A; [|reflexivity].
  destruct (JsNum.le y hi) eqn:B; [|reflexivity].
  pose proof (JsNumFacts.le_not_lt _ _ (JsNumFacts.le_trans _ _ _ A B)).
  congruence.
Qed.

Lemma inverted_year_range_keeps_nothing_witness :
  applyFilters Sample.corpus
    (Some (Sample.yearsOnly (Some 2021%float) (Some 2020%float))) = [].
Proof.
  apply (inverted_year_range_keeps_nothing Sample.corpus
           (Sample.yearsOnly (Some 2021%float) (Some 2020%float))
           2021%float 2020%float); reflexivity.
Defined.

(** ** The similarity penalty and the bound of the ranker *)

Module MaxFacts.

Import JsNum.

Lemma Math_max_cases a b :
  isNaN a = false -> isNaN b = false ->
  (Math_max a b = a \/ Math_max a b = b)
  /\ le a (Math_max a b) = true /\ le b (Math_max a b) = true.
Proof.
  intros Ha Hb. unfold Math_max. rewrite Ha, Hb. cbn [orb].
  destruct (lt a b) eqn:L1.
  - split; [auto|]. split; [apply JsNumFacts.lt_le; exact L1|].
    apply JsNumFacts.le_refl; exact Hb.
  - destruct (lt b a) eqn:L2.
    + split; [auto|]. split; [apply JsNumFacts.le_refl; exact Ha|].
      apply JsNumFacts.lt_le; exact L2.
    + pose proof (JsNumFacts.le_total _ _ Ha Hb L1) as Hba.
      pose proof (JsNumFacts.le_total _ _ Hb Ha L2) as Hab.
      destruct (PrimFloat.get_sign a); (split; [auto|]); split;
        auto using JsNumFacts.le_refl.
Qed.

End MaxFacts.

Section PenaltyFacts.

Context {A : Type}.
Variable score : A -> float.
Variable embeddingOf : A -> JsVal.
Variable cosineSimilarity : JsVal -> JsVal -> float.

Abbreviation sim c s := (cosineSimilarity (embeddingOf c) (embeddingOf s)).

Lemma fold_max_bounds c : forall selected acc,
  JsNum.isNaN acc = false ->
  Forall (fun s => JsNum.isNaN (sim c s) = false) selected ->
  let m := fold_left (fun acc s => JsNum.Math_max acc (sim c s)) selected acc in
  JsNum.isNaN m = false
  /\ JsNum.le acc m = true
  /\ Forall (fun s => JsNum.le (sim c s) m = true) selected
  /\ (m = acc \/ Exists (fun s => m = sim c s) selected).
Proof.
  induction selected as [|s l IH]; intros acc Ha Hl; simpl.
  - repeat split; auto using JsNumFacts.le_refl.
  - inversion Hl as [|? ? Hs Hl']; subst.
    destruct (MaxFacts.Math_max_cases acc (sim c s) Ha Hs) as (Hc & H1 & H2).
    assert (Hn : JsNum.isNaN (JsNum.Math_max acc (sim c s)) = false)
      by (destruct Hc as [-> | ->]; assumption).
    destruct (IH _ Hn Hl') as (N & L & F & E).
    split; [exact N|]. split; [eapply JsNumFacts.le_trans; eauto|].
    split.
    + constructor; [eapply JsNumFacts.le_trans; eauto|exact F].
    + destruct E as [E|E].
      * destruct Hc as [Hc|Hc]; [left|right; constructor];
          rewrite E; exact Hc.
      * right. apply Exists_cons_tl. exact E.
Qed.

(** When the similarities to the selected items are numbers, the penalty
    term [maxSimilarity] is never negative, is at least every one of these
    similarities, and is [0] or one of them: it is their maximum floored
    at [0]. *)
Theorem maxSimilarity_is_floored_maximum selected c :
  Forall (fun s => JsNum.isNaN (sim c s) = false) selected ->
  let penalty := maxSimilarity embeddingOf cosineSimilarity selected c in
  JsNum.le PrimFloat.zero penalty = true
  /\ Forall (fun s => JsNum.le (sim c s) penalty = true) selected
  /\ (penalty = PrimFloat.zero
      \/ Exists (fun s => penalty = sim c s) selected).
Proof.
  intros H. cbv zeta. unfold maxSimilarity.
  destruct (fold_max_bounds c selected PrimFloat.zero eq_refl H)
    as (_ & L & F & E).
  auto.
Qed.

(** The output of the ranker consists of input candidates, each taken at
    most as often as it occurs in the input, and it begins with the first
    input candidate. *)
Theorem mmrDiversification_selects_from_input results lambda K :
  let out :=
    mmrDiversification score embeddingOf cosineSimilarity results lambda K in
  (exists left, Permutation (out ++ left) results)
  /\ hd_error out = hd_error results.
Proof.
  cbv zeta.
  split; [apply mmrDiversification_sub|].
  destruct results as [|r rest]; [|apply mmrDiversification_head].
  unfold mmrDiversification. destruct (JsNum.lenLe _ K); reflexivity.
Qed.

(** For an integer bound in 1..10, diversifying a mmrDiversification score embeddingOf cosineSimilarity list changes
    nothing. *)
Theorem mmrDiversification_idempotent results lambda k :
  (1 <= k <= 10)%nat ->
  let out :=
    mmrDiversification score embeddingOf cosineSimilarity results lambda
                       (JsNum.ofNat k) in
  mmrDiversification score embeddingOf cosineSimilarity out lambda
                     (JsNum.ofNat k)
  = out.
Proof.
  intros Hk. cbv zeta. apply mmrDiversification_small.
  rewrite LenFacts.lenLe_ofNat by lia.
  rewrite mmrDiversification_length by assumption.
  apply Nat.leb_le. lia.
Qed.

(** A bound that [1] is not below (for instance [0], a negative number or
    [NaN]) does not empty the output: a non-empty input that exceeds the
    bound yields exactly its first candidate. *)
Theorem mmrDiversification_bound_below_one r rest lambda K :
  JsNum.lenLt 1 K = false ->
  mmrDiversification score embeddingOf cosineSimilarity (r :: rest) lambda K
  = if JsNum.lenLe (S (length rest)) K then r :: rest else [r].
Proof.
  intros H. unfold mmrDiversification. simpl length.
  destruct (JsNum.lenLe (S (length rest)) K); [reflexivity|].
  destruct (length rest); simpl; [reflexivity|]. rewrite H. reflexivity.
Qed.

End PenaltyFacts.

Lemma maxSimilarity_is_floored_maximum_witness :
  JsNum.le PrimFloat.zero
    (maxSimilarity embeddingField cosineSimilaritySpec [Sample.oa] Sample.ob)
  = true
  /\ Forall (fun s =>
               JsNum.le (cosineSimilaritySpec (embeddingField Sample.ob)
                                              (embeddingField s))
                 (maxSimilarity embeddingField cosineSimilaritySpec
                                [Sample.oa] Sample.ob) = true)
            [Sample.oa]
  /\ (maxSimilarity embeddingField cosineSimilaritySpec [Sample.oa] Sample.ob
      = PrimFloat.zero
      \/ Exists (fun s =>
                   maxSimilarity embeddingField cosineSimilaritySpec
                                 [Sample.oa] Sample.ob
                   = cosineSimilaritySpec (embeddingField Sample.ob)
                                          (embeddingField s))
                [Sample.oa]).
Proof.
  apply (maxSimilarity_is_floored_maximum embeddingField cosineSimilaritySpec
           [Sample.oa] Sample.ob).
  constructor; [vm_compute; reflexivity|constructor].
Defined.

Lemma mmrDiversification_idempotent_witness :
  mmrDiversification scoreOf embeddingField cosineSimilaritySpec
    (mmrDiversification scoreOf embeddingField cosineSimilaritySpec
       [Sample.oa; Sample.oc; Sample.ob] lambda03 (JsNum.ofNat 2))
    lambda03 (JsNum.ofNat 2)
  = mmrDiversification scoreOf embeddingField cosineSimilaritySpec
      [Sample.oa; Sample.oc; Sample.ob] lambda03 (JsNum.ofNat 2).
Proof.
  apply (mmrDiversification_idempotent scoreOf embeddingField
           cosineSimilaritySpec [Sample.oa; Sample.oc; Sample.ob] lambda03 2).
  lia.
Defined.

Lemma mmrDiversification_bound_below_one_witness :
  mmrDiversification scoreOf embeddingField cosineSimilaritySpec
    [Sample.oa; Sample.oc; Sample.ob] lambda03 PrimFloat.zero
  = if JsNum.lenLe 3 PrimFloat.zero
    then [Sample.oa; Sample.oc; Sample.ob] else [Sample.oa].
Proof.
  apply (mmrDiversification_bound_below_one scoreOf embeddingField
           cosineSimilaritySpec Sample.oa [Sample.oc; Sample.ob] lambda03
           PrimFloat.zero).
  reflexivity.
Defined.

(** ** Responses and server state *)

Module ResponseFacts.

Abbreviation validated req :=
  (validateInput (queryEmbedding req) (defaultTopK (topK req)) (req_filter req)).

Lemma errorResponse_shape message :
  let r := errorResponse message in
  (status r = 400 \/ status r = 500)
  /\ is_Some (error r) /\ results r = []
  /\ metadata r = <["error" := JBool true]> ∅.
Proof.
  unfold errorResponse. cbn.
  destruct (JsString.includes message "Invalid"); repeat split; eauto.
Qed.

Lemma POST_state cos req now store s :
  snd (POST cos req now store s)
  = match validated req with
    | Ok _ => snd (loadPapers now store s)
    | Throw _ => s
    end.
Proof.
  unfold POST, search, bind, lift. cbv zeta.
  destruct (validated req); [|reflexivity].
  destruct (loadPapers now store s) as [[papers|message] s']; [|reflexivity].
  destruct (length (applyFilters papers (req_filter req)) =? 0)%nat;
    reflexivity.
Qed.

Lemma POST_trichotomy cos req now store s :
  let r := fst (POST cos req now store s) in
  ((exists message, validated req = Throw message) /\ status r = 400)
  \/ (validated req = Ok tt
      /\ (exists s', loadPapers now store s
                     = (Throw "Failed to load papers data", s'))
      /\ status r = 500)
  \/ (validated req = Ok tt
      /\ (exists papers s', loadPapers now store s = (Ok papers, s'))
      /\ status r = 200 /\ error r = None).
Proof.
  cbv zeta.
  destruct (validated req) as [u|message] eqn:V.
  - destruct u.
    destruct (loadPapers now store s) as [[papers|message] s'] eqn:L.
    + right. right. split; [reflexivity|]. split; [eauto|].
      assert (applyFilters papers (req_filter req) = []
              \/ applyFilters papers (req_filter req) <> []) as [F|N]
        by (destruct (applyFilters papers (req_filter req));
            [left; reflexivity|right; discriminate]).
      * rewrite (POST_empty cos req now store s papers s' V L F).
        split; reflexivity.
      * rewrite (POST_results cos req now store s papers s' V L N).
        split; reflexivity.
    + right. left. split; [reflexivity|].
      pose proof (loadPapers_message _ _ _ _ _ L) as ->.
      split; [eauto|].
      rewrite (POST_load_error cos req now store s _ s' V L). reflexivity.
  - left. split; [eauto|].
    rewrite (POST_invalid cos req now store s message V).
    pose proof (validateInput_message _ _ _ _ V) as I.
    unfold errorResponse. cbn. rewrite I. reflexivity.
Qed.

Lemma loadPapers_reads now store s :
  let s' := snd (loadPapers now store s) in
  (storageReads s <= storageReads s' <= S (storageReads s))%nat
  /\ (storageReads s' = storageReads s -> s' = s).
Proof.
  unfold loadPapers. destruct (cacheValid now s); [simpl; split; [lia|auto]|].
  destruct store; simpl; (split; [lia|intros; lia]).
Qed.

Lemma POST_reads_bounds cos req now store s :
  let s' := snd (POST cos req now store s) in
  (storageReads s <= storageReads s' <= S (storageReads s))%nat
  /\ (storageReads s' = storageReads s -> s' = s).
Proof.
  cbv zeta. rewrite POST_state.
  destruct (validated req); [apply loadPapers_reads|].
  split; [lia|auto].
Qed.

Lemma rank_length_le cos query papers K :
  (length (rank cos query papers K) <= length papers)%nat.
Proof.
  unfold rank.
  destruct (mmrDiversification_sub scoreOf embeddingField cos
              (sortBy byScoreDesc (map (scored cos query) papers)) lambda03 K)
    as (left & P).
  apply Permutation_length in P.
  rewrite length_app, sortBy_length, length_map in P. lia.
Qed.

Lemma fullMetadata_returned papers filteredPapers results flt :
  fullMetadata papers filteredPapers results flt !! "returned_chunks"
  = Some (count (length results)).
Proof. reflexivity. Qed.

Lemma nil_or_not {A : Type} (l : list A) : l = [] \/ l <> [].
Proof. destruct l; [left; reflexivity|right; discriminate]. Qed.

End ResponseFacts.

(** What the status of a response tells: a request that the validation
    refuses is answered 400; a validated request whose corpus load throws
    is answered 500; a response with status 200 means that the validation
    passed and the corpus was loaded; there is no other status. *)
Theorem POST_status_sound cos req now store s :
  let r := fst (POST cos req now store s) in
  let validation :=
    validateInput (queryEmbedding req) (defaultTopK (topK req))
                  (req_filter req) in
  ((exists message, validation = Throw message) -> status r = 400)
  /\ (validation = Ok tt ->
      (exists message s', loadPapers now store s = (Throw message, s')) ->
      status r = 500)
  /\ (status r = 200 ->
      validation = Ok tt
      /\ exists papers s', loadPapers now store s = (Ok papers, s'))
  /\ (status r = 200 \/ status r = 400 \/ status r = 500).
Proof.
  cbv zeta.
  destruct (ResponseFacts.POST_trichotomy cos req now store s)
    as [((m & V) & St)|[(V & (s' & L) & St)|(V & (papers & s' & L) & St & _)]];
    rewrite St, V, ?L.
  - repeat split; eauto; discriminate.
  - repeat split; eauto; try discriminate.
    intros (? & ?); discriminate.
  - repeat split; eauto; try discriminate.
    + intros (? & ?); discriminate.
    + intros _ (? & ? & ?); discriminate.
Qed.

(** No partial answer comes with an error: a response whose status is not
    200 has an error message, no results, and the metadata [{error: true}]
    with none of the counts. *)
Theorem error_responses_are_bare cos req now store s :
  let r := fst (POST cos req now store s) in
  status r <> 200 ->
  is_Some (error r) /\ results r = []
  /\ metadata r = <["error" := JBool true]> ∅.
Proof.
  cbv zeta. intros Hs.
  destruct (POST_outcome cos req now store s)
    as [(message & E)|(papers' & s'' & _ & _ & _ & [(_ & E)|(_ & E)])];
    rewrite E in *.
  - apply ResponseFacts.errorResponse_shape.
  - exfalso. apply Hs. reflexivity.
  - exfalso. apply Hs. reflexivity.
Qed.

Lemma error_responses_are_bare_witness :
  let r :=
    fst (POST cosineSimilaritySpec (Sample.request (JNum 15%float) None)
           1000 (Corpus Sample.corpus) initialServer) in
  is_Some (error r) /\ results r = []
  /\ metadata r = <["error" := JBool true]> ∅.
Proof.
  apply (error_responses_are_bare cosineSimilaritySpec
           (Sample.request (JNum 15%float) None) 1000 (Corpus Sample.corpus)
           initialServer).
  vm_compute. discriminate.
Defined.

(** A request reads the corpus file at most once, and when it does not
    read it the server state is unchanged; a request answered with 400
    leaves the state unchanged. *)
Theorem POST_reads_storage_at_most_once cos req now store s :
  let s' := snd (POST cos req now store s) in
  (storageReads s <= storageReads s' <= S (storageReads s))%nat
  /\ (storageReads s' = storageReads s -> s' = s)
  /\ (status (fst (POST cos req now store s)) = 400 -> s' = s).
Proof.
  cbv zeta.
  destruct (ResponseFacts.POST_reads_bounds cos req now store s) as [R1 R2].
  split; [exact R1|]. split; [exact R2|].
  rewrite ResponseFacts.POST_state.
  destruct (ResponseFacts.POST_trichotomy cos req now store s)
    as [((m & V) & St)|[(V & _ & St)|(V & _ & St & _)]];
    rewrite V, St; auto; discriminate.
Qed.

(** Ranking never bypasses the filter: every result of a successful
    response is the stripped, scored record of a corpus paper that passes
    the filter; the results are drawn from these records without
    repetition; and there are no more results than filtered papers, and no
    more filtered papers than papers. *)
Theorem results_come_from_filtered_papers cos req now store s papers s' :
  validateInput (queryEmbedding req) (defaultTopK (topK req))
                (req_filter req) = Ok tt ->
  loadPapers now store s = (Ok papers, s') ->
  let response := fst (POST cos req now store s) in
  let candidates :=
    map (fun p => stripEmbedding (scored cos (queryEmbedding req) p))
        (List.filter (passes (req_filter req)) papers) in
  (forall r, In r (results response) ->
     exists p, In p papers /\ passes (req_filter req) p = true
               /\ r = stripEmbedding (scored cos (queryEmbedding req) p))
  /\ (exists left, Permutation (results response ++ left) candidates)
  /\ (length (results response)
      <= length (applyFilters papers (req_filter req))
      <= length papers)%nat.
Proof.
  intros V L. cbv zeta.
  assert (Hlen : (length (applyFilters papers (req_filter req))
                  <= length papers)%nat).
  { rewrite FilterAlgebra.applyFilters_passes. apply List.filter_length_le. }
  destruct (ResponseFacts.nil_or_not (applyFilters papers (req_filter req)))
    as [F|N].
  - rewrite (POST_empty cos req now store s papers s' V L F). cbn [fst results].
    split; [intros r []|]. split; [|simpl; lia].
    eexists. simpl. reflexivity.
  - rewrite (POST_results cos req now store s papers s' V L N).
    cbn [fst results].
    split; [|split].
    + intros r Hr. apply in_map_iff in Hr as (o & <- & Ho).
      apply rank_from_filtered in Ho as (p & Hp & ->).
      rewrite FilterAlgebra.applyFilters_passes in Hp.
      apply filter_In in Hp as [Hp Hq]. eauto.
    + unfold rank.
      destruct (mmrDiversification_sub scoreOf embeddingField cos
                  (sortBy byScoreDesc
                     (map (scored cos (queryEmbedding req))
                          (applyFilters papers (req_filter req))))
                  lambda03 (toNumber (defaultTopK (topK req))))
        as (left & P).
      exists (map stripEmbedding left).
      rewrite <- map_app, <- FilterAlgebra.applyFilters_passes.
      rewrite <- (map_map (scored cos (queryEmbedding req)) stripEmbedding).
      apply Permutation_map.
      rewrite P. apply sortBy_perm.
    + rewrite length_map.
      split; [apply ResponseFacts.rank_length_le|exact Hlen].
Qed.

Lemma results_come_from_filtered_papers_witness :
  let req := Sample.request (JNum 2%float) None in
  let response :=
    fst (POST cosineSimilaritySpec req 1000 (Corpus Sample.corpus)
           initialServer) in
  let candidates :=
    map (fun p => stripEmbedding
                    (scored cosineSimilaritySpec (queryEmbedding req) p))
        (List.filter (passes (req_filter req)) Sample.corpus) in
  (forall r, In r (results response) ->
     exists p, In p Sample.corpus /\ passes (req_filter req) p = true
               /\ r = stripEmbedding
                        (scored cosineSimilaritySpec (queryEmbedding req) p))
  /\ (exists left, Permutation (results response ++ left) candidates)
  /\ (length (results response)
      <= length (applyFilters Sample.corpus (req_filter req))
      <= length Sample.corpus)%nat.
Proof.
  apply (results_come_from_filtered_papers cosineSimilaritySpec
           (Sample.request (JNum 2%float) None) 1000 (Corpus Sample.corpus)
           initialServer Sample.corpus
           (mkServer (Some Sample.corpus) (Some 1000) 1)).
  - vm_compute. reflexivity.
  - vm_compute. reflexivity.
Defined.

(** With [topK] absent (the default 5) or an integer [k] in 1..10, a
    successful response has exactly [min k n] results for [n] filtered
    papers, and when [n] is not 0 [returned_chunks] is that number. *)
Theorem result_count_is_min cos req now store s papers s' k :
  validateInput (queryEmbedding req) (defaultTopK (topK req))
                (req_filter req) = Ok tt ->
  loadPapers now store s = (Ok papers, s') ->
  (topK req = JUndef /\ k = 5%nat)
  \/ (topK req = count k /\ (1 <= k <= 10)%nat) ->
  let response := fst (POST cos req now store s) in
  let n := length (applyFilters papers (req_filter req)) in
  length (results response) = Nat.min k n
  /\ (n <> 0%nat ->
      metadata response !! "returned_chunks" = Some (count (Nat.min k n))).
Proof.
  intros V L Hk. cbv zeta.
  assert (K : toNumber (defaultTopK (topK req)) = JsNum.ofNat k
              /\ (1 <= k <= 10)%nat).
  { destruct Hk as [[-> ->]|[-> Hk]]; [split; [reflexivity|lia]|].
    split; [reflexivity|exact Hk]. }
  destruct K as [K Hr].
  destruct (ResponseFacts.nil_or_not (applyFilters papers (req_filter req)))
    as [F|N].
  - rewrite (POST_empty cos req now store s papers s' V L F), F.
    simpl. split; [lia|congruence].
  - rewrite (POST_results cos req now store s papers s' V L N).
    cbn [fst results metadata]. rewrite ResponseFacts.fullMetadata_returned.
    rewrite length_map, K.
    unfold rank. rewrite mmrDiversification_length by assumption.
    rewrite sortBy_length, length_map. split; reflexivity.
Qed.

Lemma result_count_is_min_witness :
  let req := Sample.request JUndef None in
  let response :=
    fst (POST cosineSimilaritySpec req 1000 (Corpus Sample.corpus)
           initialServer) in
  let n := length (applyFilters Sample.corpus (req_filter req)) in
  length (results response) = Nat.min 5 n
  /\ (n <> 0%nat ->
      metadata response !! "returned_chunks" = Some (count (Nat.min 5 n))).
Proof.
  apply (result_count_is_min cosineSimilaritySpec
           (Sample.request JUndef None) 1000 (Corpus Sample.corpus)
           initialServer Sample.corpus
           (mkServer (Some Sample.corpus) (Some 1000) 1) 5).
  - vm_compute. reflexivity.
  - vm_compute. reflexivity.
  - left. split; reflexivity.
Defined.

Lemma falsy_number x :
  JsNum.truthy x = false ->
  forall n, JsNum.cmpLen (S n) x = None \/ JsNum.cmpLen (S n) x = Some Gt.
Proof.
  unfold JsNum.truthy, JsNum.isNaN, PrimFloat.is_nan, JsNum.cmpLen.
  rewrite !FloatAxioms.eqb_spec.
  change (Prim2SF PrimFloat.zero) with (S754_zero false).
  intros H n.
  destruct (Prim2SF x) as [sg|sg| |sg m e]; auto.
  - exfalso. destruct sg; discriminate.
  - exfalso. unfold SFeqb in H. simpl in H.
    rewrite Z.compare_refl in H.
    change (Pos.compare_cont Eq m m) with (Pos.compare m m) in H.
    rewrite Pos.compare_refl in H. destruct sg; discriminate.
Qed.

Lemma falsy_bound v :
  truthy v = false -> v <> JUndef ->
  forall n, JsNum.lenLe (S n) (toNumber v) = false
            /\ JsNum.lenLt (S n) (toNumber v) = false.
Proof.
  intros T U n. unfold JsNum.lenLe, JsNum.lenLt.
  assert (JsNum.cmpLen (S n) (toNumber v) = None
          \/ JsNum.cmpLen (S n) (toNumber v) = Some Gt) as [-> | ->]; auto.
  destruct v as [| |b|x|t|l]; try congruence; simpl in *.
  - right. reflexivity.
  - subst b. right. reflexivity.
  - apply falsy_number. exact T.
  - destruct (String.eqb t ""); [right; reflexivity|discriminate].
  - discriminate.
Qed.

(** A [topK] that is given but falsy ([0], [null], [false], the empty
    string) passes the validation unchanged and bounds nothing: on a
    non-empty filtered set whose scores are numbers (no [NaN]) the response
    has exactly one result, the head of the sorted candidates, which no
    candidate outscores. *)
Theorem falsy_topK_gives_one_result cos req now store s papers s' :
  validateInput (queryEmbedding req) (defaultTopK (topK req))
                (req_filter req) = Ok tt ->
  loadPapers now store s = (Ok papers, s') ->
  applyFilters papers (req_filter req) <> [] ->
  (forall p, In p (applyFilters papers (req_filter req)) ->
             JsNum.isNaN (cos (queryEmbedding req) (vector (embedding p)))
             = false) ->
  topK req <> JUndef -> truthy (topK req) = false ->
  exists top,
    results (fst (POST cos req now store s)) = [stripEmbedding top]
    /\ hd_error (sortBy byScoreDesc
                   (map (scored cos (queryEmbedding req))
                        (applyFilters papers (req_filter req))))
       = Some top
    /\ forall p, In p (applyFilters papers (req_filter req)) ->
                 JsNum.le (scoreOf (scored cos (queryEmbedding req) p))
                          (scoreOf top) = true.
Proof.
  intros V L N Hn U T.
  rewrite (POST_results cos req now store s papers s' V L N).
  cbn [fst results]. unfold rank.
  assert (D : defaultTopK (topK req) = topK req)
    by (destruct (topK req); congruence || reflexivity).
  rewrite D.
  pose proof (sorted_candidates cos (queryEmbedding req) _ Hn) as Hs.
  pose proof (sortBy_perm byScoreDesc
                (map (scored cos (queryEmbedding req))
                     (applyFilters papers (req_filter req)))) as Hp.
  destruct (sortBy byScoreDesc
              (map (scored cos (queryEmbedding req))
                   (applyFilters papers (req_filter req))))
    as [|r rest] eqn:E.
  - apply (f_equal (@length _)) in E.
    rewrite sortBy_length, length_map in E.
    destruct (applyFilters papers (req_filter req)); [congruence|discriminate].
  - exists r. split; [|split; [reflexivity|]].
    + destruct (falsy_bound (topK req) T U (length rest)) as [B1 B2].
      destruct (falsy_bound (topK req) T U 0) as [_ B3].
      unfold mmrDiversification. cbn [length]. rewrite B1.
      destruct (length rest); cbn [mmrLoop length]; [reflexivity|].
      rewrite B3. reflexivity.
    + intros p Hin.
      assert (In (scored cos (queryEmbedding req) p) (r :: rest)) as [Er|Hr].
      { eapply Permutation_in; [symmetry; exact Hp|].
        apply in_map. exact Hin. }
      * rewrite Er. apply JsNumFacts.le_refl. rewrite scoreOf_scored. auto.
      * inversion Hs as [|? ? _ Hall]; subst.
        rewrite List.Forall_forall in Hall. apply (Hall _ Hr).
Qed.

Lemma falsy_topK_gives_one_result_witness :
  exists top,
    results (fst (POST cosineSimilaritySpec
                    (Sample.request (JNum PrimFloat.zero) None) 1000
                    (Corpus Sample.corpus) initialServer))
    = [stripEmbedding top]
    /\ hd_error (sortBy byScoreDesc
                   (map (scored cosineSimilaritySpec Sample.query)
                        (applyFilters Sample.corpus None)))
       = Some top
    /\ forall p, In p (applyFilters Sample.corpus None) ->
                 JsNum.le (scoreOf (scored cosineSimilaritySpec Sample.query p))
                          (scoreOf top) = true.
Proof.
  apply (falsy_topK_gives_one_result cosineSimilaritySpec
           (Sample.request (JNum PrimFloat.zero) None) 1000
           (Corpus Sample.corpus) initialServer Sample.corpus
           (mkServer (Some Sample.corpus) (Some 1000) 1)).
  - vm_compute. reflexivity.
  - vm_compute. reflexivity.
  - discriminate.
  - intros p [<-|[<-|[<-|[]]]]; vm_compute; reflexivity.
  - discriminate.
  - reflexivity.
Defined.

(** Within five minutes of a load, the same request gets the same response
    and leaves the state as it is, whatever the corpus file holds by then:
    the file is read once. *)
Theorem repeated_request_is_served_from_cache
    cos req now1 now2 data store2 s :
  validateInput (queryEmbedding req) (defaultTopK (topK req))
                (req_filter req) = Ok tt ->
  cacheValid now1 s = None ->
  now1 <> 0 -> now2 - now1 < CACHE_DURATION ->
  let first := POST cos req now1 (Corpus data) s in
  POST cos req now2 store2 (snd first) = first
  /\ storageReads (snd first) = S (storageReads s).
Proof.
  intros V C Hz Hage. cbv zeta.
  assert (L1 : loadPapers now1 (Corpus data) s
               = (Ok data,
                  mkServer (Some data) (Some now1) (S (storageReads s))))
    by (unfold loadPapers; rewrite C; reflexivity).
  assert (L2 : loadPapers now2 store2
                 (mkServer (Some data) (Some now1) (S (storageReads s)))
               = (Ok data,
                  mkServer (Some data) (Some now1) (S (storageReads s)))).
  { unfold loadPapers, cacheValid. cbn [papersCache cacheTimestamp].
    destruct (Z.eqb_spec now1 0) as [E|_]; [contradiction|].
    destruct (Z.ltb_spec (now2 - now1) CACHE_DURATION) as [_|G]; [|lia].
    reflexivity. }
  assert (S1 : snd (POST cos req now1 (Corpus data) s)
               = mkServer (Some data) (Some now1) (S (storageReads s)))
    by (rewrite ResponseFacts.POST_state, V, L1; reflexivity).
  rewrite S1. split; [|reflexivity].
  unfold POST, search, bind, lift. cbv zeta. rewrite V, L1, L2. reflexivity.
Qed.

Lemma repeated_request_is_served_from_cache_witness :
  let first :=
    POST cosineSimilaritySpec (Sample.request JUndef None) 1000
         (Corpus Sample.corpus) initialServer in
  POST cosineSimilaritySpec (Sample.request JUndef None) 200000 Unreadable
       (snd first) = first
  /\ storageReads (snd first) = 1%nat.
Proof.
  apply (repeated_request_is_served_from_cache cosineSimilaritySpec
           (Sample.request JUndef None) 1000 200000 Sample.corpus Unreadable
           initialServer).
  - vm_compute. reflexivity.
  - reflexivity.
  - discriminate.
  - reflexivity.
Defined.



(** ** The client *)

(** [handleSearch] passes the results on exactly when the status is 200;
    for every other response it reports ['Search failed']: the message of
    the route never reaches the user, and the test of [searchData.error]
    never fires on an answer of this route. *)
Theorem afterSearch_hides_messages cos req now store s :
  let r := fst (POST cos req now store s) in
  (status r = 200 -> Client.afterSearch r = Ok (results r))
  /\ (status r <> 200 -> Client.afterSearch r = Throw "Search failed").
Proof.
  cbv zeta. unfold Client.afterSearch.
  destruct (ResponseFacts.POST_trichotomy cos req now store s)
    as [(_ & St)|[(_ & _ & St)|(_ & _ & St & Er)]]; rewrite St, ?Er;
    split; intros H; try reflexivity; try discriminate.
  exfalso. apply H. reflexivity.
Qed.

Module ClientFacts.

Import Client.

Lemma toInt32_range z : - 2 ^ 31 <= toInt32 z < 2 ^ 31.
Proof.
  unfold toInt32.
  pose proof (Z.mod_pos_bound (z + 2 ^ 31) (2 ^ 32) ltac:(reflexivity)).
  change (2 ^ 32) with (2 * 2 ^ 31) in *. lia.
Qed.

Lemma toInt32_shift z k : toInt32 (z + k * 2 ^ 32) = toInt32 z.
Proof.
  unfold toInt32.
  replace (z + k * 2 ^ 32 + 2 ^ 31) with (z + 2 ^ 31 + k * 2 ^ 32) by ring.
  rewrite Z_mod_plus_full. reflexivity.
Qed.

Lemma toInt32_eq z : exists k, toInt32 z = z + k * 2 ^ 32.
Proof.
  unfold toInt32. exists (- ((z + 2 ^ 31) / 2 ^ 32)).
  pose proof (Z.div_mod (z + 2 ^ 31) (2 ^ 32) ltac:(discriminate)). lia.
Qed.

Lemma hashStep_mod hash char :
  hashStep hash char = toInt32 (31 * hash + char).
Proof.
  unfold hashStep.
  destruct (toInt32_eq hash) as (k1 & ->).
  destruct (toInt32_eq ((hash + k1 * 2 ^ 32) * 2 ^ 5)) as (k2 & ->).
  replace ((hash + k1 * 2 ^ 32) * 2 ^ 5 + k2 * 2 ^ 32 - hash + char)
    with (31 * hash + char + (32 * k1 + k2) * 2 ^ 32) by ring.
  apply toInt32_shift.
Qed.

Lemma embedQuery_length Math_sin inBrowser codes e :
  embedQuery Math_sin inBrowser codes = Ok e -> length e = 384%nat.
Proof.
  unfold embedQuery. destruct (negb inBrowser); [discriminate|].
  intros H. injection H as E. rewrite <- E. reflexivity.
Qed.

End ClientFacts.

(** The hash of the query text is the 32-bit string hash: it starts at 0,
    every character takes [hash] to [31 * hash + char] wrapped to a signed
    32-bit integer, and it stays in the signed 32-bit range. *)
Theorem textHash_is_the_31_hash codes char :
  Client.textHash [] = 0
  /\ Client.textHash (codes ++ [char])
     = Client.toInt32 (31 * Client.textHash codes + char)
  /\ - 2 ^ 31 <= Client.textHash codes < 2 ^ 31.
Proof.
  split; [reflexivity|]. split.
  - unfold Client.textHash. rewrite fold_left_app. simpl.
    apply ClientFacts.hashStep_mod.
  - unfold Client.textHash.
    destruct codes as [|c l] using rev_ind; [simpl; lia|].
    rewrite fold_left_app. simpl. rewrite ClientFacts.hashStep_mod.
    apply ClientFacts.toInt32_range.
Qed.

(** Outside of a browser [embedQuery] throws; in a browser it returns 384
    numbers for every text. *)
Theorem embedQuery_dimension Math_sin codes :
  Client.embedQuery Math_sin false codes
  = Throw "Embedding generation is only available in the browser"
  /\ exists e, Client.embedQuery Math_sin true codes = Ok e
               /\ length e = 384%nat.
Proof.
  split; [reflexivity|]. eexists. split; [reflexivity|].
  rewrite length_map, length_seq. reflexivity.
Qed.

(** The request the search tab builds from an embedding of [embedQuery] and
    a [topK] in 1..10 (the slider offers 3..10) always passes the
    validation of the route, whatever [Math.sin] returns. *)
Theorem client_request_passes_validation Math_sin codes e k :
  Client.embedQuery Math_sin true codes = Ok e ->
  (1 <= k <= 10)%nat ->
  let req := Client.searchRequest e k in
  validateInput (queryEmbedding req) (defaultTopK (topK req)) (req_filter req)
  = Ok tt.
Proof.
  intros He Hk. cbv zeta. unfold Client.searchRequest, validateInput.
  cbn [queryEmbedding topK req_filter].
  rewrite length_map, (ClientFacts.embedQuery_length _ _ _ _ He).
  cbn [Nat.eqb negb].
  do 11 (destruct k as [|k]; [try lia; reflexivity|]). lia.
Qed.

Lemma client_request_passes_validation_witness :
  let e :=
    map (fun i => PrimFloat.mul
                    (Client.ofZ (Client.textHash (Client.codeUnits "bone loss")
                                 + Z.of_nat i))
                    Client.tenth)
        (seq 0 384) in
  let req := Client.searchRequest e 5 in
  validateInput (queryEmbedding req) (defaultTopK (topK req)) (req_filter req)
  = Ok tt.
Proof.
  apply (client_request_passes_validation (fun x => x)
           (Client.codeUnits "bone loss") _ 5).
  - reflexivity.
  - lia.
Defined.

(** ** Expiry of the cache *)

(** The freshness test is strict: a cached collection whose age has
    reached five minutes is not used; the corpus file is read again and
    its content replaces the cache, stamped with the current time. *)
Theorem cache_expires_at_five_minutes now data s cached ts :
  papersCache s = Some cached -> cacheTimestamp s = Some ts ->
  5 * 60 * 1000 <= now - ts ->
  loadPapers now (Corpus data) s
  = (Ok data, mkServer (Some data) (Some now) (S (storageReads s))).
Proof.
  intros Hc Ht Hage. unfold loadPapers, cacheValid. rewrite Hc, Ht.
  unfold CACHE_DURATION.
  destruct (Z.ltb_spec (now - ts) (5 * 60 * 1000)) as [G|_]; [lia|].
  rewrite andb_false_r. reflexivity.
Qed.

Lemma cache_expires_at_five_minutes_witness :
  loadPapers 301000 (Corpus [Sample.pa]) Sample.warm
  = (Ok [Sample.pa], mkServer (Some [Sample.pa]) (Some 301000) 2).
Proof.
  apply (cache_expires_at_five_minutes 301000 [Sample.pa] Sample.warm
           Sample.corpus 1000); (reflexivity || lia).
Defined.
